(** * Vegetation-index ranking pipeline

    A shallow embedding of the orthomosaic processing pipeline
    (clip, vegetation index, zonal ranking, orchestration) together with
    the properties its specification states about it.

    Conventions.
    - Raster samples are IEEE-754 binary32 values ([np.float32]); they are
      modelled bit-exactly with the Standard Library's [SpecFloat], so
      that NaN, infinities, signed zeros and rounding are those of the
      code.
    - Per-cell statistics and percentiles are exact rationals; a null
      statistic (Python [None] or NaN, which pandas treats alike) is
      [None].
    - Stateful code runs in a small state-and-exception monad over a
      [World] (files and a trace of the library operations performed).
    - Third-party geometry routines ([rasterio.mask.mask],
      [rasterstats.zonal_stats]) and numpy's sorting algorithm are
      parameters: the code is verified against their documented
      contracts. *)

From Stdlib Require Import ZArith QArith Qabs List String Lia Lqa Permutation Sorted.
From Stdlib Require Import Floats.SpecFloat.
From stdpp Require Import gmap strings list pretty sorting.

Local Open Scope Z_scope.

(* ===================================================================== *)
(** * IEEE-754 single precision                                            *)
(* ===================================================================== *)

Module Float32.

Definition prec : Z := 24.
Definition emax : Z := 128.

Abbreviation float32 := spec_float.

Definition add : float32 -> float32 -> float32 := SFadd prec emax.
Definition sub : float32 -> float32 -> float32 := SFsub prec emax.
Definition div : float32 -> float32 -> float32 := SFdiv prec emax.
Definition abs : float32 -> float32 := SFabs.
Definition ltb : float32 -> float32 -> bool := SFltb.
Definition leb : float32 -> float32 -> bool := SFleb.
Definition eqb : float32 -> float32 -> bool := SFeqb.

Definition is_nan (x : float32) : bool :=
    match x with S754_nan => true | _ => false end.


Definition is_zero (x : float32) : bool :=
    match x with S754_zero _ => true | _ => false end.

  (** Integer to binary32, round to nearest even ([astype(np.float32)] on an
      integer array). *)
Definition of_Z (z : Z) : float32 := binary_normalize prec emax z 0 false.

  (** Rounding of a wider binary float to binary32 (a Python float, which is
      a binary64, meeting a float32 array). A value that already is a
      binary32 is left as it is. *)
Definition round (x : spec_float) : float32 :=
    match x with
    | S754_finite s m e => binary_round prec emax s m e
    | _ => x
    end.

  (** The Python literal [1e-10]: the binary64 nearest to 10^-10. *)
Definition py_1e_10 : spec_float :=
    SFdiv 53 1024 (binary_normalize 53 1024 1 0 false)
                  (binary_normalize 53 1024 10000000000 0 false).


  (** [lo <= x <= hi] as the floating-point comparisons decide it; false
      for NaN. *)
Definition in_range (lo hi x : float32) : bool := leb lo x && leb x hi.

End Float32.

Import Float32.

(* ===================================================================== *)
(** * The numpy operations used by [iv_gen]                                *)
(* ===================================================================== *)

(** A band is the array of its samples in row-major order; the element-wise
    operations act position by position. *)
Module Np.

Definition ndarray := list float32.

Definition add (a b : ndarray) : ndarray := zip_with Float32.add a b.
Definition sub (a b : ndarray) : ndarray := zip_with Float32.sub a b.
Definition div (a b : ndarray) : ndarray := zip_with Float32.div a b.
Definition abs (a : ndarray) : ndarray := map Float32.abs a.

  (** [a < s] for a scalar [s]. *)
Definition less (a : ndarray) (s : float32) : list bool :=
    map (fun x => Float32.ltb x s) a.

  (** [np.where(cond, s, a)] for a scalar [s]. *)
Definition where_ (cond : list bool) (s : float32) (a : ndarray) : ndarray :=
    zip_with (fun (c : bool) x => if c then s else x) cond a.

  (** [np.maximum] and [np.minimum] of a sample and a scalar bound: the
      first argument wins when it is NaN. *)
Definition maximum1 (x b : float32) : float32 :=
    if is_nan x then x else if Float32.ltb b x then x else b.
Definition minimum1 (x b : float32) : float32 :=
    if is_nan x then x else if Float32.ltb x b then x else b.

  (** [np.clip(x, lo, hi)] is [minimum(maximum(x, lo), hi)]. *)
Definition clip1 (lo hi x : float32) : float32 :=
    minimum1 (maximum1 x lo) hi.
Definition clip (a : ndarray) (lo hi : float32) : ndarray :=
    map (clip1 lo hi) a.

End Np.

(* ===================================================================== *)
(** * Index formulas of [iv_gen]                                           *)
(* ===================================================================== *)

(** [epsilon = 1e-10], as the float32 arithmetic sees it. *)
Definition epsilon : float32 := Eval vm_compute in Float32.round py_1e_10.

Definition f_one : float32 := Eval vm_compute in of_Z 1.
Definition f_minus_one : float32 := Eval vm_compute in of_Z (-1).

(** The nodata value declared in the metadata of every index raster. *)
Definition NODATA_INDICE : float32 := Eval vm_compute in of_Z (-9999).

(** Denominator guard:
    [np.where(np.abs(denominador) < epsilon, epsilon, denominador)]. *)
Definition guard_denominador (denominador : Np.ndarray) : Np.ndarray :=
  Np.where_ (Np.less (Np.abs denominador) epsilon) epsilon denominador.

(** Body of [calcular_vari] between reading the bands and writing. *)
Definition vari_array (red green blue : Np.ndarray) : Np.ndarray :=
  let denominador := Np.sub (Np.add green red) blue in
  let denominador := guard_denominador denominador in
  let vari := Np.div (Np.sub green red) denominador in
  Np.clip vari f_minus_one f_one.

(** Body of [calcular_ndvi]. *)
Definition ndvi_array (nir red : Np.ndarray) : Np.ndarray :=
  let denominador := Np.add nir red in
  let denominador := guard_denominador denominador in
  let ndvi := Np.div (Np.sub nir red) denominador in
  Np.clip ndvi f_minus_one f_one.

(** Body of [calcular_gndvi]. *)
Definition gndvi_array (nir green : Np.ndarray) : Np.ndarray :=
  let denominador := Np.add nir green in
  let denominador := guard_denominador denominador in
  let gndvi := Np.div (Np.sub nir green) denominador in
  Np.clip gndvi f_minus_one f_one.

(** The same computations at one pixel. *)
Definition guard1 (d : float32) : float32 :=
  if Float32.ltb (Float32.abs d) epsilon then epsilon else d.

Definition vari_ratio (r g b : float32) : float32 :=
  Float32.div (Float32.sub g r) (guard1 (Float32.sub (Float32.add g r) b)).

Definition nd_ratio (a b : float32) : float32 :=
  Float32.div (Float32.sub a b) (guard1 (Float32.add a b)).

Definition vari_pixel (r g b : float32) : float32 :=
  Np.clip1 f_minus_one f_one (vari_ratio r g b).

Definition nd_pixel (a b : float32) : float32 :=
  Np.clip1 f_minus_one f_one (nd_ratio a b).

(* ===================================================================== *)
(** * Exceptions, files and the effect monad                               *)
(* ===================================================================== *)

Inductive exn_class :=
  | ValueError
  | IndexError
  | RasterioIOError
  | DriverError
  | FileNotFoundError
  | OtherError (name : string).

(** A raised Python exception: its class and its message, [str(e)]. *)
Record exn := Exn { exn_cls : exn_class; exn_msg : string }.

Definition str (e : exn) : string := exn_msg e.

Inductive result (A : Type) :=
  | Ok (a : A)
  | Raised (e : exn).
Arguments Ok {A} a.
Arguments Raised {A} e.

(** Computations over a state [St] that return or raise; the state reached
    when an exception is raised is kept, as in Python. *)
Definition M (St A : Type) : Type := St -> result A * St.

Definition ret {St A} (a : A) : M St A := fun s => (Ok a, s).

Definition raise {St A} (e : exn) : M St A := fun s => (Raised e, s).

Definition bind {St A B} (m : M St A) (k : A -> M St B) : M St B :=
  fun s =>
    match m s with
    | (Ok a, s') => k a s'
    | (Raised e, s') => (Raised e, s')
    end.

(** [try: body except Exception as e: handler(e)]. *)
Definition try_except {St A} (body : M St A) (handler : exn -> M St A) : M St A :=
  fun s =>
    match body s with
    | (Ok a, s') => (Ok a, s')
    | (Raised e, s') => handler e s'
    end.

Definition get {St} : M St St := fun s => (Ok s, s).
Definition modify {St} (f : St -> St) : M St unit := fun s => (Ok tt, f s).

(** A computation on a component of the state. *)
Definition zoom {St T A} (proj : St -> T) (upd : T -> St -> St) (m : M T A) : M St A :=
  fun s => let '(r, t) := m (proj s) in (r, upd t s).

Global Instance M_ret {St} : MRet (M St) := fun A => @ret St A.
Global Instance M_bind {St} : MBind (M St) := fun A B k m => @bind St A B m k.

(** ** Rasters *)

(** A stored sample: an integer of an integer raster or a float. *)
Inductive sample :=
  | SInt (z : Z)
  | SFloat (x : spec_float).

(** [.astype(np.float32)]. *)
Definition astype_float32 (s : sample) : float32 :=
  match s with
  | SInt z => of_Z z
  | SFloat x => Float32.round x
  end.

(** Affine geotransform, coefficients (a, b, c, d, e, f). *)
Definition Affine : Type := list Q.

(** The metadata dictionary [src.meta]. *)
Record Meta := {
  driver : string;
  dtype : string;
  count : nat;
  nodata : option sample;
  width : nat;
  height : nat;
  transform : Affine;
  crs : string
}.

Record Raster := {
  meta : Meta;
  bandas : list (list sample)      (* band i (1-based) is [bandas !! (i-1)] *)
}.

(** ** Vector data *)

(** A polygon or multi-polygon: parts, each a list of rings of points. *)
Definition Geometry : Type := list (list (list (Q * Q))).

(** A feature of a GeoJSON file: geometry and the optional [id] property. *)
Record Feature := {
  geometry : Geometry;
  fid : option Z
}.

(** Zonal statistics of one cell; every field but [count] is null when the
    cell has no valid sample. *)
Record ZonalStats := {
  zmin : option Q;
  zmax : option Q;
  zmean : option Q;
  zmedian : option Q;
  zstd : option Q;
  zcount : nat
}.

(** A row of the ranked grid, with the label it carries in the data frame
    index (its position in the input grid). *)
Record Row := {
  index : nat;
  r_geometry : Geometry;
  id : option Z;
  stats : ZonalStats;
  valor_medio : option Q;
  ranking : nat;
  percentil : Q;
  categoria : string
}.

Inductive File :=
  | FRaster (r : Raster)
  | FGeoJSON (features : list Feature)
  | FRanking (rows : list Row)
  | FBytes (content : string).

(** Library operations that the stages perform, in the order performed. *)
Inductive Event :=
  | EvMask (raster : string)
  | EvZonalStats (raster : string)
  | EvWrite (path : string).

Record World := {
  fs : gmap string File;
  trace : list Event
}.

Definition log_event (ev : Event) : M World unit :=
  modify (fun w => {| fs := fs w; trace := trace w ++ [ev] |}).

Definition write_file (path : string) (f : File) : M World unit :=
  modify (fun w => {| fs := <[path := f]> (fs w); trace := trace w ++ [EvWrite path] |}).

(** [rasterio.open(path)] for reading. *)
Definition rasterio_open (path : string) : M World Raster :=
  w ← get;
  match fs w !! path with
  | Some (FRaster r) => ret r
  | Some _ => raise (Exn RasterioIOError (path ++ ": not recognized as a supported file format"))
  | None => raise (Exn RasterioIOError (path ++ ": No such file or directory"))
  end.

(** [src.read(i)], bands numbered from 1. *)
Definition read (src : Raster) (i : nat) : M World (list sample) :=
  match i with
  | O => raise (Exn IndexError "band index 0 out of range")
  | S j =>
      match bandas src !! j with
      | Some b => ret b
      | None => raise (Exn IndexError "band index out of range")
      end
  end.

(** [gpd.read_file(path)]. *)
Definition gpd_read_file (path : string) : M World (list Feature) :=
  w ← get;
  match fs w !! path with
  | Some (FGeoJSON fs) => ret fs
  | Some _ => raise (Exn DriverError (path ++ ": not recognized as a supported file format"))
  | None => raise (Exn DriverError (path ++ ": No such file or directory"))
  end.

(** [gdf.empty]: no rows. *)
Definition empty {A} (gdf : list A) : bool :=
  match gdf with [] => true | _ => false end.

(** [src.meta.copy()] updated for an index raster. *)
Definition index_meta (m : Meta) : Meta :=
  {| driver := "GTiff"; dtype := "float32"; count := 1;
     nodata := Some (SFloat NODATA_INDICE);
     width := width m; height := height m;
     transform := transform m; crs := crs m |}.

(** [dest.write(a.astype(np.float32), 1)] into a new file with [out_meta]. *)
Definition write_index (caminho_saida : string) (out_meta : Meta) (a : Np.ndarray)
  : M World unit :=
  write_file caminho_saida (FRaster {| meta := out_meta; bandas := [map SFloat a] |}).

(** ** [iv_gen.calcular_vari] *)
Definition calcular_vari (caminho_ortomosaico caminho_saida : string) : M World string :=
  try_except
    (src ← rasterio_open caminho_ortomosaico;
     if (count (meta src) <? 3)%nat then
       raise (Exn ValueError "O ortomosaico deve ter pelo menos 3 bandas (RGB)")
     else
       red ← read src 1;
       green ← read src 2;
       blue ← read src 3;
       let vari := vari_array (map astype_float32 red) (map astype_float32 green)
                              (map astype_float32 blue) in
       write_index caminho_saida (index_meta (meta src)) vari;;
       ret caminho_saida)
    (fun e => raise e).

(** ** [iv_gen.calcular_ndvi] *)
Definition calcular_ndvi (caminho_ortomosaico caminho_saida : string)
    (banda_nir banda_red : nat) : M World string :=
  try_except
    (src ← rasterio_open caminho_ortomosaico;
     if (count (meta src) <? Nat.max banda_nir banda_red)%nat then
       raise (Exn ValueError ("O ortomosaico deve ter pelo menos "
                              ++ pretty (Nat.max banda_nir banda_red) ++ " bandas"))
     else
       nir ← read src banda_nir;
       red ← read src banda_red;
       let ndvi := ndvi_array (map astype_float32 nir) (map astype_float32 red) in
       write_index caminho_saida (index_meta (meta src)) ndvi;;
       ret caminho_saida)
    (fun e => raise e).

(** ** [iv_gen.calcular_gndvi] *)
Definition calcular_gndvi (caminho_ortomosaico caminho_saida : string)
    (banda_nir banda_green : nat) : M World string :=
  try_except
    (src ← rasterio_open caminho_ortomosaico;
     if (count (meta src) <? Nat.max banda_nir banda_green)%nat then
       raise (Exn ValueError ("O ortomosaico deve ter pelo menos "
                              ++ pretty (Nat.max banda_nir banda_green) ++ " bandas"))
     else
       nir ← read src banda_nir;
       green ← read src banda_green;
       let gndvi := gndvi_array (map astype_float32 nir) (map astype_float32 green) in
       write_index caminho_saida (index_meta (meta src)) gndvi;;
       ret caminho_saida)
    (fun e => raise e).

(* ===================================================================== *)
(** * Third-party routines                                                 *)
(* ===================================================================== *)

(** What [rasterio.mask.mask] returns: the masked, cropped image
    (bands x height x width) and its transform. *)
Record MaskResult := {
  out_image : list (list sample);
  out_height : nat;
  out_width : nat;
  out_transform : Affine
}.

Class GeoLib := {
  (** [rasterio.mask.mask(src, shapes, crop, all_touched)]; it raises when
      the shapes do not overlap the raster. *)
  mask : Raster -> list Geometry -> bool -> bool -> result MaskResult;
  (** [rasterstats]: the statistics of band 1 of a raster over one
      geometry, samples equal to [nodata] left out. *)
  zonal_stats1 : Raster -> float32 -> Geometry -> ZonalStats
}.

(** [a[idx]] for a list of positions. *)
Definition take_at {A} (a : list A) (idx : list nat) : list A :=
  omap (fun i => a !! i) idx.

(** numpy's [argsort] of an array without NaN, as documented for every
    [kind]: a permutation of the positions that puts the values in
    ascending order. Nothing is promised on equal values unless the kind is
    a stable one. *)
Class Argsort := {
  argsort : list Q -> list nat;
  argsort_perm : forall a, argsort a ≡ₚ seq 0 (length a);
  argsort_sorted : forall a, Sorted Qle (take_at a (argsort a))
}.


(* ===================================================================== *)
(** * [recorte_ortomosaico.recortar]                                       *)
(* ===================================================================== *)

Definition rasterio_mask `{GeoLib} (caminho : string) (src : Raster)
    (shapes : list Geometry) (crop all_touched : bool) : M World MaskResult :=
  log_event (EvMask caminho);;
  match mask src shapes crop all_touched with
  | Ok r => mret r
  | Raised e => raise e
  end.

Definition recortar `{GeoLib} (caminho_ortomosaico caminho_poligono caminho_saida : string)
  : M World string :=
  try_except
    (gdf ← gpd_read_file caminho_poligono;
     if empty gdf then
       raise (Exn ValueError "O arquivo do polígono está vazio ou inválido")
     else
       let geometrias := map geometry gdf in
       src ← rasterio_open caminho_ortomosaico;
       out ← rasterio_mask caminho_ortomosaico src geometrias true true;
       let out_meta :=
         {| driver := "GTiff"; dtype := dtype (meta src); count := count (meta src);
            nodata := nodata (meta src);
            width := out_width out; height := out_height out;
            transform := out_transform out; crs := crs (meta src) |} in
       write_file caminho_saida (FRaster {| meta := out_meta; bandas := out_image out |});;
       mret caminho_saida)
    (fun e => raise e).

(* ===================================================================== *)
(** * [ranking_gen.gerar_ranking]                                          *)
(* ===================================================================== *)

(** ** pandas' [sort_values] on one column *)

Definition isna (v : option Q) : bool :=
  match v with None => true | Some _ => false end.

(** Boolean-mask selection [a[mask]]. *)
Fixpoint compress {A} (mask : list bool) (a : list A) : list A :=
  match mask, a with
  | b :: mask', x :: a' => if b then x :: compress mask' a' else compress mask' a'
  | _, _ => []
  end.

(** [np.nonzero(mask)[0]]. *)
Definition nonzero (mask : list bool) : list nat :=
  compress mask (seq 0 (length mask)).

(** pandas' [nargsort] with [na_position="last"]: the values that are not
    null are sorted by numpy (for a descending sort, reversed before and
    after), and the positions of the null values follow in their order. *)
Definition nargsort `{Argsort} (items : list (option Q)) (ascending : bool) : list nat :=
  let mask := map isna items in
  let idx := seq 0 (length items) in
  let non_nans := omap (fun v => v) (compress (map negb mask) items) in
  let non_nan_idx := compress (map negb mask) idx in
  let nan_idx := nonzero mask in
  let non_nans := if ascending then non_nans else reverse non_nans in
  let non_nan_idx := if ascending then non_nan_idx else reverse non_nan_idx in
  let indexer := take_at non_nan_idx (argsort non_nans) in
  let indexer := if ascending then indexer else reverse indexer in
  indexer ++ nan_idx.

(** ** The data frame of [gerar_ranking] *)

(** A row after [GeoDataFrame.from_features] and the [id] column. *)
Record StatsRow := {
  s_index : nat;
  s_geometry : Geometry;
  s_id : option Z;
  s_stats : ZonalStats
}.

Definition from_features (stats : list (Feature * ZonalStats)) : list StatsRow :=
  imap (fun i fz => {| s_index := i; s_geometry := geometry (fst fz);
                       s_id := fid (fst fz); s_stats := snd fz |}) stats.

(** [if "id" not in gdf_stats.columns: gdf_stats["id"] = range(1, len + 1)];
    the column exists as soon as one feature carries the property. *)
Definition assign_id (gdf : list StatsRow) : list StatsRow :=
  if existsb (fun r => bool_decide (is_Some (s_id r))) gdf then gdf
  else imap (fun i r => {| s_index := s_index r; s_geometry := s_geometry r;
                           s_id := Some (Z.of_nat (S i)); s_stats := s_stats r |}) gdf.

(** [gdf.sort_values(by="valor_medio", ascending=False)], where
    [valor_medio] is the column [mean]. *)
Definition sort_values `{Argsort} (gdf : list StatsRow) : list StatsRow :=
  take_at gdf (nargsort (map (fun r => zmean (s_stats r)) gdf) false).

(** [100 * (1 - (ranking / len(gdf_stats)))]. *)
Definition calcular_percentil (ranking n : nat) : Q :=
  (100 * (1 - (inject_Z (Z.of_nat ranking) / inject_Z (Z.of_nat n))))%Q.

Definition classificar_celula (percentil : Q) : string :=
  if Qle_bool 80 percentil then "Excelente"
  else if Qle_bool 60 percentil then "Bom"
  else if Qle_bool 40 percentil then "Médio"
  else if Qle_bool 20 percentil then "Regular"
  else "Ruim".

(** The frame written by [gerar_ranking]: the sorted rows, row [k]
    (from 0) given [ranking = k + 1], its percentile and its category. *)
Definition ranking_table `{Argsort} (stats : list (Feature * ZonalStats)) : list Row :=
  let gdf_stats := assign_id (from_features stats) in
  let gdf_stats := sort_values gdf_stats in
  let n := length gdf_stats in
  imap (fun k r =>
          let rk := S k in
          let p := calcular_percentil rk n in
          {| index := s_index r; r_geometry := s_geometry r; id := s_id r;
             stats := s_stats r; valor_medio := zmean (s_stats r);
             ranking := rk; percentil := p;
             categoria := classificar_celula p |}) gdf_stats.

(** [rasterstats.zonal_stats(grade, caminho_indice, ..., nodata=-9999)]. *)
Definition zonal_stats `{GeoLib} (grade : list Feature) (caminho_indice : string)
    (nd : float32) : M World (list (Feature * ZonalStats)) :=
  log_event (EvZonalStats caminho_indice);;
  raster ← rasterio_open caminho_indice;
  mret (map (fun f => (f, zonal_stats1 raster nd (geometry f))) grade).

Definition gerar_ranking `{GeoLib} `{Argsort}
    (caminho_indice caminho_grade caminho_saida : string) : M World string :=
  try_except
    (grade ← gpd_read_file caminho_grade;
     if empty grade then
       raise (Exn ValueError "A grade de entrada está vazia ou inválida")
     else
       stats ← zonal_stats grade caminho_indice NODATA_INDICE;
       write_file caminho_saida (FRanking (ranking_table stats));;
       mret caminho_saida)
    (fun e => raise e).

(* ===================================================================== *)
(** * Notification: [api.enviar_webhook]                                   *)
(* ===================================================================== *)

Record Notification := {
  n_projeto : string;
  n_talhao : string;
  n_status : string;
  n_mensagem : option string
}.

(** The webhook side of the process: the configured URL
    ([os.getenv("WEBHOOK_URL")]), the calls of [enviar_webhook] so far and
    the requests posted so far (URL and JSON payload). *)
Record Hook := {
  webhook_url : option string;
  calls : list Notification;
  posts : list (string * list (string * string))
}.

Class HttpLib := {
  (** [requests.post(url, json=payload, ...)]: the status code of the
      response, or the exception raised. *)
  requests_post : string -> list (string * string) -> result nat
}.

Definition record_call (n : Notification) : M Hook unit :=
  modify (fun h => {| webhook_url := webhook_url h; calls := calls h ++ [n];
                      posts := posts h |}).

Definition post `{HttpLib} (url : string) (payload : list (string * string)) : M Hook nat :=
  modify (fun h => {| webhook_url := webhook_url h; calls := calls h;
                      posts := posts h ++ [(url, payload)] |});;
  match requests_post url payload with
  | Ok code => mret code
  | Raised e => raise e
  end.

(** Python truthiness of an optional string. *)
Definition truthy (s : option string) : bool :=
  match s with
  | None => false
  | Some s => negb (String.eqb s "")
  end.

Definition enviar_webhook `{HttpLib} (id_projeto id_talhao status : string)
    (mensagem : option string) : M Hook unit :=
  record_call {| n_projeto := id_projeto; n_talhao := id_talhao;
                 n_status := status; n_mensagem := mensagem |};;
  h ← get;
  if negb (truthy (webhook_url h)) then mret tt
  else
    let url := default "" (webhook_url h) in
    let payload := [("id_projeto", id_projeto); ("id_talhao", id_talhao);
                    ("status", status)] in
    let payload := if truthy mensagem
                   then payload ++ [("mensagem", default "" mensagem)]
                   else payload in
    try_except (response ← post url payload; mret tt) (fun e => mret tt).

(* ===================================================================== *)
(** * [main.processar_ortomosaico]                                         *)
(* ===================================================================== *)

(** The stages and collaborators the orchestrator calls, over whatever
    state [St] they act on (local files, remote storage, ...). *)
Class Stages (St Client : Type) := {
  stage_mkdir : string -> M St unit;                       (* tmp_dir.mkdir(exist_ok=True) *)
  stage_conectar : M St Client;                            (* sb_connect.conectar *)
  stage_baixar_arquivo : Client -> string -> string -> M St string;
  stage_recortar : string -> string -> string -> M St string;
  stage_calcular_vari : string -> string -> M St string;
  stage_gerar_ranking : string -> string -> string -> M St string;
  stage_gerar_relatorio : string -> string -> string -> string -> string -> M St string;
  stage_enviar_arquivo : Client -> string -> string -> M St (option string)
}.

Definition on_job {St A} (m : M St A) : M (St * Hook) A :=
  zoom fst (fun s p => (s, snd p)) m.

Definition on_hook {St A} (m : M Hook A) : M (St * Hook) A :=
  zoom snd (fun h p => (fst p, h)) m.

Definition criar_diretorio_temporario `{Stages St Client} (id_projeto : string) : M St string :=
  let tmp_dir := ("~/processamento_ortomosaicos/tmp/" ++ id_projeto)%string in
  stage_mkdir tmp_dir;;
  mret tmp_dir.

(** [tmp_dir / name]. *)
Definition path_join (dir name : string) : string := (dir ++ "/" ++ name)%string.

(** The stage calls of the [try] block, from connecting to the storage to
    the last upload. *)
Definition etapas `{Stages St Client} (id_projeto id_talhao tmp_dir : string) : M St unit :=
  supabase ← stage_conectar;
  let ortomosaico_path := ("Ortomosaicos/" ++ id_projeto ++ "/ortomosaico.tif")%string in
  let poligono_path := ("talhoes/" ++ id_talhao ++ "/poligono.geojson")%string in
  let grade_path := ("talhoes/" ++ id_talhao ++ "/grade_entrada.geojson")%string in
  let ortomosaico_local := path_join tmp_dir "ortomosaico.tif" in
  let poligono_local := path_join tmp_dir "poligono.geojson" in
  let grade_local := path_join tmp_dir "grade_entrada.geojson" in
  stage_baixar_arquivo supabase ortomosaico_path ortomosaico_local;;
  stage_baixar_arquivo supabase poligono_path poligono_local;;
  stage_baixar_arquivo supabase grade_path grade_local;;
  let ortomosaico_recortado := path_join tmp_dir "ortomosaico_recortado.tif" in
  stage_recortar ortomosaico_local poligono_local ortomosaico_recortado;;
  let vari_path := path_join tmp_dir "vari.tif" in
  stage_calcular_vari ortomosaico_recortado vari_path;;
  let grade_saida_path := path_join tmp_dir "grade_saida.geojson" in
  stage_gerar_ranking vari_path grade_local grade_saida_path;;
  let relatorio_path := path_join tmp_dir "relatorio.pdf" in
  stage_gerar_relatorio ortomosaico_recortado vari_path grade_saida_path
                        poligono_local relatorio_path;;
  stage_enviar_arquivo supabase ortomosaico_recortado
    ("produtos_finais/" ++ id_projeto ++ "/ortomosaico_recortado.tif")%string;;
  stage_enviar_arquivo supabase vari_path
    ("produtos_finais/" ++ id_projeto ++ "/vari.tif")%string;;
  stage_enviar_arquivo supabase grade_saida_path
    ("produtos_finais/" ++ id_projeto ++ "/grade_saida.geojson")%string;;
  stage_enviar_arquivo supabase relatorio_path
    ("produtos_finais/" ++ id_projeto ++ "/relatorio.pdf")%string;;
  mret tt.

Definition processar_ortomosaico `{Stages St Client} `{HttpLib}
    (id_projeto id_talhao : string) : M (St * Hook) bool :=
  tmp_dir ← on_job (criar_diretorio_temporario id_projeto);
  try_except
    (on_job (etapas id_projeto id_talhao tmp_dir);;
     on_hook (enviar_webhook id_projeto id_talhao "concluido" None);;
     mret true)
    (fun e =>
       on_hook (enviar_webhook id_projeto id_talhao "erro" (Some (str e)));;
       mret false).

(** [api.executar_processamento_background]. *)
Definition executar_processamento_background `{Stages St Client} `{HttpLib}
    (id_projeto id_talhao : string) : M (St * Hook) unit :=
  try_except
    (on_hook (enviar_webhook id_projeto id_talhao "iniciado" None);;
     sucesso ← processar_ortomosaico id_projeto id_talhao;
     mret tt)
    (fun e => on_hook (enviar_webhook id_projeto id_talhao "erro" (Some (str e)))).

(* ===================================================================== *)
(** * Two sorts that meet numpy's contract                                 *)
(* ===================================================================== *)

(** Insertion sort of (value, position) pairs, with the test that decides
    whether the new pair goes before the one it meets. Testing [<=] keeps
    equal values in their order (a stable kind); testing [<] reverses
    them. *)
Fixpoint insert_by (before : Q -> Q -> bool) (x : Q * nat) (l : list (Q * nat))
  : list (Q * nat) :=
  match l with
  | [] => [x]
  | y :: l' => if before (fst x) (fst y) then x :: y :: l' else y :: insert_by before x l'
  end.

Definition sort_by (before : Q -> Q -> bool) (l : list (Q * nat)) : list (Q * nat) :=
  foldr (insert_by before) [] l.

Definition argsort_by (before : Q -> Q -> bool) (a : list Q) : list nat :=
  map snd (sort_by before (zip a (seq 0 (length a)))).

Definition before_stable (x y : Q) : bool := Qle_bool x y.

(** Order of the pairs by value. *)
Definition key_le (p q : Q * nat) : Prop := Qle (fst p) (fst q).


(** The world after [path] was written with [f]. *)
Definition written (w : World) (path : string) (f : File) : World :=
  {| fs := <[path := f]> (fs w); trace := trace w ++ [EvWrite path] |}.

(** Rows built from the features keep, for each input position, the
    geometry and the statistics of the feature at that position. *)
Definition row_of_input (stats : list (Feature * ZonalStats)) (r : StatsRow) : Prop :=
  exists f z, stats !! s_index r = Some (f, z)
              /\ s_geometry r = geometry f /\ s_stats r = z.

(** The row that [ranking_table] makes of the sorted row [r] at position [k]. *)
Definition ranked (n k : nat) (r : StatsRow) : Row :=
  {| index := s_index r; r_geometry := s_geometry r; id := s_id r;
     stats := s_stats r; valor_medio := zmean (s_stats r);
     ranking := S k; percentil := calcular_percentil (S k) n;
     categoria := classificar_celula (calcular_percentil (S k) n) |}.

(** One call of [enviar_webhook]. *)
Definition notified (id_projeto id_talhao status : string) (mensagem : option string)
  : Notification :=
  {| n_projeto := id_projeto; n_talhao := id_talhao;
     n_status := status; n_mensagem := mensagem |}.

(** An output sample is clamped when it is NaN or lies in [-1, 1]. *)
Definition clamped (x : float32) : Prop :=
  is_nan x = true \/ in_range f_minus_one f_one x = true.

(* ===================================================================== *)
(** * Floating-point facts                                                 *)
(* ===================================================================== *)

Lemma guard1_replaces d :
  Float32.ltb (Float32.abs d) epsilon = true -> guard1 d = epsilon.
Proof. unfold guard1. intros ->. reflexivity. Qed.

Lemma guard1_keeps d :
  Float32.ltb (Float32.abs d) epsilon = false -> guard1 d = d.
Proof. unfold guard1. intros ->. reflexivity. Qed.

Lemma guard1_nonzero d : is_zero (guard1 d) = false.
Proof.
  unfold guard1. destruct d as [s|s| |s m e]; try reflexivity.
  destruct (Float32.ltb _ _); reflexivity.
Qed.

Lemma ltb_leb x y : Float32.ltb x y = true -> Float32.leb x y = true.
Proof.
  unfold Float32.ltb, Float32.leb, SFltb, SFleb.
  destruct (SFcompare x y) as [[]|]; congruence.
Qed.

Lemma clip1_cases x :
  is_nan x = false ->
  (Np.clip1 f_minus_one f_one x = x /\ Float32.ltb f_minus_one x = true /\ Float32.ltb x f_one = true)
  \/ (Np.clip1 f_minus_one f_one x = f_one /\ Float32.ltb f_minus_one x = true /\ Float32.ltb x f_one = false)
  \/ (Np.clip1 f_minus_one f_one x = f_minus_one /\ Float32.ltb f_minus_one x = false).
Proof.
  intros Hn. unfold Np.clip1, Np.maximum1. rewrite Hn.
  destruct (Float32.ltb f_minus_one x) eqn:Hlo.
  - unfold Np.minimum1. rewrite Hn.
    destruct (Float32.ltb x f_one) eqn:Hhi; auto.
  - right; right. split; [reflexivity | reflexivity].
Qed.

Lemma clip1_nan lo hi : Np.clip1 lo hi S754_nan = S754_nan.
Proof. reflexivity. Qed.

Lemma clip1_in_range x :
  is_nan x = false -> in_range f_minus_one f_one (Np.clip1 f_minus_one f_one x) = true.
Proof.
  intros Hn. unfold in_range.
  destruct (clip1_cases x Hn) as [(-> & Hlo & Hhi)|[(-> & _)|(-> & _)]].
  - rewrite (ltb_leb _ _ Hlo), (ltb_leb _ _ Hhi). reflexivity.
  - reflexivity.
  - reflexivity.
Qed.

Lemma clip1_is_nan x : is_nan (Np.clip1 f_minus_one f_one x) = is_nan x.
Proof.
  destruct (is_nan x) eqn:Hn.
  - destruct x; try discriminate. reflexivity.
  - destruct (clip1_cases x Hn) as [(-> & _)|[(-> & _)|(-> & _)]]; auto.
Qed.






Lemma above_minus_one_not_nodata x :
  Float32.leb f_minus_one x = true -> Float32.eqb x NODATA_INDICE = false.
Proof.
  destruct x as [s|s| |s m e].
  - reflexivity.
  - destruct s; [discriminate | reflexivity].
  - reflexivity.
  - destruct s; [|reflexivity].
    unfold Float32.leb, Float32.eqb, SFleb, SFeqb, f_minus_one, NODATA_INDICE, SFcompare.
    destruct (e ?= -10) eqn:He.
    + apply Z.compare_eq in He. subst e.
      change (-23 ?= -10) with Lt. cbv iota. discriminate.
    + intros _. reflexivity.
    + intros _. reflexivity.
Qed.

Lemma clip1_not_nodata x : Float32.eqb (Np.clip1 f_minus_one f_one x) NODATA_INDICE = false.
Proof.
  destruct (is_nan x) eqn:Hn.
  - destruct x; try discriminate. reflexivity.
  - apply above_minus_one_not_nodata.
    pose proof (clip1_in_range x Hn) as H. unfold in_range in H.
    apply andb_prop in H. tauto.
Qed.

(* ===================================================================== *)
(** * The index arrays, pixel by pixel                                     *)
(* ===================================================================== *)

Lemma guard_denominador_cons d ds :
  guard_denominador (d :: ds) = guard1 d :: guard_denominador ds.
Proof.
  unfold guard_denominador, guard1, Np.where_, Np.less, Np.abs.
  cbn [map zip_with]. reflexivity.
Qed.

Lemma vari_array_cons r g b red green blue :
  vari_array (r :: red) (g :: green) (b :: blue)
  = vari_pixel r g b :: vari_array red green blue.
Proof.
  unfold vari_array, Np.add, Np.sub, Np.div, Np.clip. cbn [zip_with].
  rewrite guard_denominador_cons. cbn [zip_with map]. reflexivity.
Qed.

Lemma ndvi_array_cons a b nir red :
  ndvi_array (a :: nir) (b :: red) = nd_pixel a b :: ndvi_array nir red.
Proof.
  unfold ndvi_array, Np.add, Np.sub, Np.div, Np.clip. cbn [zip_with].
  rewrite guard_denominador_cons. cbn [zip_with map]. reflexivity.
Qed.

Lemma gndvi_array_cons a b nir green :
  gndvi_array (a :: nir) (b :: green) = nd_pixel a b :: gndvi_array nir green.
Proof.
  unfold gndvi_array, Np.add, Np.sub, Np.div, Np.clip. cbn [zip_with].
  rewrite guard_denominador_cons. cbn [zip_with map]. reflexivity.
Qed.

Lemma vari_array_lookup (red green blue : list float32) i r g b :
  red !! i = Some r -> green !! i = Some g -> blue !! i = Some b ->
  vari_array red green blue !! i = Some (vari_pixel r g b).
Proof.
  revert green blue i.
  induction red as [|r0 red IH]; intros [|g0 green] [|b0 blue] [|i]; try discriminate.
  - intros [= ->] [= ->] [= ->]. reflexivity.
  - intros Hr Hg Hb. rewrite vari_array_cons. apply (IH green blue i Hr Hg Hb).
Qed.

Lemma vari_array_Forall (P : float32 -> Prop) :
  (forall r g b, P (vari_pixel r g b)) ->
  forall red green blue, Forall P (vari_array red green blue).
Proof.
  intros HP. induction red as [|r red IH]; intros [|g green] [|b blue];
    try (constructor; fail).
  rewrite vari_array_cons. constructor; [apply HP | apply IH].
Qed.





Lemma vari_array_length red green blue :
  length red = length green -> length red = length blue ->
  length (vari_array red green blue) = length red.
Proof.
  revert green blue. induction red as [|r red IH]; intros [|g green] [|b blue]; try discriminate; auto.
  intros [= H1] [= H2]. rewrite vari_array_cons. simpl. f_equal. auto.
Qed.

(* ===================================================================== *)
(** * Running the stages                                                   *)
(* ===================================================================== *)

Lemma run_bind {St A B} (m : M St A) (k : A -> M St B) (s : St) :
  (m ≫= k) s = match m s with
               | (Ok a, s') => k a s'
               | (Raised e, s') => (Raised e, s')
               end.
Proof. reflexivity. Qed.

Lemma run_ret {St A} (a : A) (s : St) : (mret a : M St A) s = (Ok a, s).
Proof. reflexivity. Qed.

Lemma run_try_except {St A} (body : M St A) (h : exn -> M St A) (s : St) :
  try_except body h s = match body s with
                        | (Ok a, s') => (Ok a, s')
                        | (Raised e, s') => h e s'
                        end.
Proof. reflexivity. Qed.

(** A handler that only re-raises leaves the computation as it is. *)
Lemma try_except_reraise {St A} (body : M St A) (s : St) :
  try_except body (fun e => raise e) s = body s.
Proof. unfold try_except, raise. destruct (body s) as [[a|e] s']; reflexivity. Qed.

Lemma run_rasterio_open path (w : World) r :
  fs w !! path = Some (FRaster r) -> rasterio_open path w = (Ok r, w).
Proof. intros H. unfold rasterio_open. rewrite run_bind. cbn [get]. rewrite H. reflexivity. Qed.

Lemma run_gpd_read_file path (w : World) g :
  fs w !! path = Some (FGeoJSON g) -> gpd_read_file path w = (Ok g, w).
Proof. intros H. unfold gpd_read_file. rewrite run_bind. cbn [get]. rewrite H. reflexivity. Qed.

Lemma run_read src j b (w : World) :
  bandas src !! j = Some b -> read src (S j) w = (Ok b, w).
Proof. intros H. unfold read. rewrite H. reflexivity. Qed.

Lemma calcular_vari_ok p out (w : World) r red green blue :
  fs w !! p = Some (FRaster r) ->
  (3 <= count (meta r))%nat ->
  bandas r !! 0%nat = Some red -> bandas r !! 1%nat = Some green ->
  bandas r !! 2%nat = Some blue ->
  calcular_vari p out w
  = (Ok out,
     written w out
       (FRaster {| meta := index_meta (meta r);
                   bandas := [map SFloat (vari_array (map astype_float32 red)
                                (map astype_float32 green) (map astype_float32 blue))] |})).
Proof.
  intros Hf Hc Hr Hg Hb. unfold calcular_vari.
  rewrite try_except_reraise, run_bind, (run_rasterio_open _ _ _ Hf).
  destruct (Nat.ltb_spec (count (meta r)) 3) as [Hlt|_]; [lia|].
  rewrite run_bind, (run_read _ _ _ _ Hr).
  rewrite run_bind, (run_read _ _ _ _ Hg).
  rewrite run_bind, (run_read _ _ _ _ Hb).
  reflexivity.
Qed.

Lemma calcular_vari_few_bands p out (w : World) r :
  fs w !! p = Some (FRaster r) ->
  (count (meta r) < 3)%nat ->
  calcular_vari p out w
  = (Raised (Exn ValueError "O ortomosaico deve ter pelo menos 3 bandas (RGB)"), w).
Proof.
  intros Hf Hc. unfold calcular_vari.
  rewrite try_except_reraise, run_bind, (run_rasterio_open _ _ _ Hf).
  destruct (Nat.ltb_spec (count (meta r)) 3) as [_|Hge]; [reflexivity | lia].
Qed.


Lemma calcular_ndvi_few_bands p out (w : World) r banda_nir banda_red :
  fs w !! p = Some (FRaster r) ->
  (count (meta r) < Nat.max banda_nir banda_red)%nat ->
  calcular_ndvi p out banda_nir banda_red w
  = (Raised (Exn ValueError ("O ortomosaico deve ter pelo menos "
                             ++ pretty (Nat.max banda_nir banda_red) ++ " bandas")), w).
Proof.
  intros Hf Hc. unfold calcular_ndvi.
  rewrite try_except_reraise, run_bind, (run_rasterio_open _ _ _ Hf).
  destruct (Nat.ltb_spec (count (meta r)) (Nat.max banda_nir banda_red)) as [_|Hge]; [reflexivity | lia].
Qed.

Lemma calcular_gndvi_few_bands p out (w : World) r banda_nir banda_green :
  fs w !! p = Some (FRaster r) ->
  (count (meta r) < Nat.max banda_nir banda_green)%nat ->
  calcular_gndvi p out banda_nir banda_green w
  = (Raised (Exn ValueError ("O ortomosaico deve ter pelo menos "
                             ++ pretty (Nat.max banda_nir banda_green) ++ " bandas")), w).
Proof.
  intros Hf Hc. unfold calcular_gndvi.
  rewrite try_except_reraise, run_bind, (run_rasterio_open _ _ _ Hf).
  destruct (Nat.ltb_spec (count (meta r)) (Nat.max banda_nir banda_green)) as [_|Hge]; [reflexivity | lia].
Qed.

Lemma recortar_empty `{GeoLib} orto pol out (w : World) :
  fs w !! pol = Some (FGeoJSON []) ->
  recortar orto pol out w
  = (Raised (Exn ValueError "O arquivo do polígono está vazio ou inválido"), w).
Proof.
  intros Hp. unfold recortar.
  rewrite try_except_reraise, run_bind, (run_gpd_read_file _ _ _ Hp). reflexivity.
Qed.

Lemma gerar_ranking_empty `{GeoLib} `{Argsort} indice grade out (w : World) :
  fs w !! grade = Some (FGeoJSON []) ->
  gerar_ranking indice grade out w
  = (Raised (Exn ValueError "A grade de entrada está vazia ou inválida"), w).
Proof.
  intros Hp. unfold gerar_ranking.
  rewrite try_except_reraise, run_bind, (run_gpd_read_file _ _ _ Hp). reflexivity.
Qed.


Lemma recortar_ok `{GeoLib} orto pol out (w : World) f feats r m :
  fs w !! pol = Some (FGeoJSON (f :: feats)) ->
  fs w !! orto = Some (FRaster r) ->
  mask r (map geometry (f :: feats)) true true = Ok m ->
  recortar orto pol out w
  = (Ok out,
     {| fs := <[out := FRaster
                 {| meta := {| driver := "GTiff"; dtype := dtype (meta r);
                               count := count (meta r); nodata := nodata (meta r);
                               width := out_width m; height := out_height m;
                               transform := out_transform m; crs := crs (meta r) |};
                    bandas := out_image m |}]> (fs w);
        trace := (trace w ++ [EvMask orto]) ++ [EvWrite out] |}).
Proof.
  intros Hp Ho Hm. unfold recortar.
  rewrite try_except_reraise, run_bind, (run_gpd_read_file _ _ _ Hp).
  cbn [empty]. rewrite run_bind, (run_rasterio_open _ _ _ Ho). cbv beta iota.
  unfold rasterio_mask. rewrite !run_bind. cbn [log_event modify].
  rewrite Hm. reflexivity.
Qed.

Local Open Scope nat_scope.

(* ===================================================================== *)
(** * Sorting: positions, permutations, order                              *)
(* ===================================================================== *)

Lemma compress_split {A} (m : list bool) (a : list A) :
  length m = length a ->
  compress (map negb m) a ++ compress m a ≡ₚ a.
Proof.
  revert a. induction m as [|b m IH]; intros [|x a] Hlen; try discriminate; [reflexivity|].
  injection Hlen as Hlen. destruct b; cbn [map negb compress].
  - rewrite <- Permutation_middle. constructor. auto.
  - cbn. constructor. auto.
Qed.

Lemma compress_length_seq {A} (m : list bool) (a : list A) j :
  length m = length a ->
  length (compress m a) = length (compress m (seq j (length a))).
Proof.
  revert a j. induction m as [|b m IH]; intros [|x a] j Hlen; try discriminate; [reflexivity|].
  injection Hlen as Hlen. cbn [length seq compress].
  destruct b; cbn [length]; rewrite (IH a (S j) Hlen); reflexivity.
Qed.

Lemma omap_notna (items : list (option Q)) :
  length (omap (fun v => v) (compress (map negb (map isna items)) items))
  = length (compress (map negb (map isna items)) items).
Proof.
  induction items as [|[x|] items IH]; cbn; auto.
Qed.

Lemma take_at_seq_app {A} (pre a : list A) :
  take_at (pre ++ a) (seq (length pre) (length a)) = a.
Proof.
  revert pre. induction a as [|x a IH]; intros pre; [reflexivity|].
  cbn [length seq]. unfold take_at. cbn.
  rewrite list_lookup_middle by reflexivity.
  f_equal. specialize (IH (pre ++ [x])).
  rewrite <- app_assoc, length_app in IH. cbn in IH.
  rewrite Nat.add_1_r in IH. exact IH.
Qed.

Lemma take_at_seq {A} (a : list A) : take_at a (seq 0 (length a)) = a.
Proof. apply (take_at_seq_app [] a). Qed.

Lemma take_at_perm {A} (a : list A) idx :
  idx ≡ₚ seq 0 (length a) -> take_at a idx ≡ₚ a.
Proof.
  intros H. unfold take_at. rewrite H. fold (take_at a (seq 0 (length a))).
  rewrite take_at_seq. reflexivity.
Qed.

Lemma take_at_length {A} (a : list A) idx :
  idx ≡ₚ seq 0 (length a) -> length (take_at a idx) = length a.
Proof. intros H. apply Permutation_length, take_at_perm, H. Qed.

Section Nargsort.
Context `{A : Argsort}.

Lemma nargsort_perm (items : list (option Q)) (ascending : bool) :
  nargsort items ascending ≡ₚ seq 0 (length items).
Proof.
  unfold nargsort, nonzero.
  set (mask := map isna items).
  set (non_nans := omap (fun v => v) (compress (map negb mask) items)).
  set (non_nan_idx := compress (map negb mask) (seq 0 (length items))).
  assert (Hm : length mask = length items) by apply length_map.
  assert (Hlen : length non_nans = length non_nan_idx).
  { unfold non_nans, non_nan_idx, mask. rewrite omap_notna.
    apply compress_length_seq. rewrite !length_map. reflexivity. }
  rewrite Hm.
  rewrite <- (compress_split mask (seq 0 (length items))) at 2
    by (rewrite length_seq; exact Hm).
  apply Permutation_app; [|reflexivity].
  fold non_nan_idx.
  destruct ascending.
  - apply take_at_perm. rewrite argsort_perm, Hlen. reflexivity.
  - rewrite reverse_Permutation.
    rewrite <- (reverse_Permutation non_nan_idx) at 2.
    apply take_at_perm. rewrite argsort_perm, !length_reverse, Hlen. reflexivity.
Qed.

Lemma nargsort_length (items : list (option Q)) (ascending : bool) :
  length (nargsort items ascending) = length items.
Proof. rewrite (Permutation_length (nargsort_perm items ascending)). apply length_seq. Qed.

Lemma sort_values_perm (gdf : list StatsRow) : sort_values gdf ≡ₚ gdf.
Proof.
  unfold sort_values. apply take_at_perm.
  rewrite nargsort_perm, length_map. reflexivity.
Qed.

Lemma sort_values_length (gdf : list StatsRow) : length (sort_values gdf) = length gdf.
Proof. apply Permutation_length, sort_values_perm. Qed.

End Nargsort.

Lemma map_fmap {A B} (f : A -> B) (l : list A) : map f l = f <$> l.
Proof. reflexivity. Qed.

Lemma from_features_lookup stats i r :
  from_features stats !! i = Some r ->
  s_index r = i /\ row_of_input stats r.
Proof.
  unfold from_features. rewrite list_lookup_imap.
  destruct (stats !! i) as [[f z]|] eqn:E; [|discriminate].
  intros [= <-]. cbn. split; [reflexivity|].
  exists f, z. cbn. auto.
Qed.

Lemma from_features_length stats : length (from_features stats) = length stats.
Proof. apply length_imap. Qed.

Lemma assign_id_length gdf : length (assign_id gdf) = length gdf.
Proof. unfold assign_id. destruct (existsb _ _); [reflexivity | apply length_imap]. Qed.

Lemma assign_id_lookup gdf i r :
  assign_id gdf !! i = Some r ->
  exists r0, gdf !! i = Some r0 /\ s_index r = s_index r0
             /\ s_geometry r = s_geometry r0 /\ s_stats r = s_stats r0.
Proof.
  unfold assign_id. destruct (existsb _ _).
  - intros H. exists r. auto.
  - rewrite list_lookup_imap. destruct (gdf !! i) as [r0|]; [|discriminate].
    intros [= <-]. exists r0. cbn. auto.
Qed.

Lemma frame_lookup stats i r :
  assign_id (from_features stats) !! i = Some r ->
  s_index r = i /\ row_of_input stats r.
Proof.
  intros H. apply assign_id_lookup in H as (r0 & H0 & Hi & Hg & Hs).
  apply from_features_lookup in H0 as (Hi0 & f & z & Hl & Hg0 & Hs0).
  split; [congruence|]. exists f, z. rewrite Hi, Hg, Hs. auto.
Qed.



Section Table.
Context `{A : Argsort}.

Lemma ranking_table_eq stats :
  ranking_table stats
  = imap (ranked (length stats))
         (sort_values (assign_id (from_features stats))).
Proof.
  unfold ranking_table. rewrite sort_values_length, assign_id_length, from_features_length.
  reflexivity.
Qed.

Lemma ranking_table_length stats : length (ranking_table stats) = length stats.
Proof.
  rewrite ranking_table_eq, length_imap, sort_values_length, assign_id_length.
  apply from_features_length.
Qed.

Lemma ranking_table_lookup stats k row :
  ranking_table stats !! k = Some row ->
  exists r, sort_values (assign_id (from_features stats)) !! k = Some r
            /\ row = ranked (length stats) k r.
Proof.
  rewrite ranking_table_eq, list_lookup_imap.
  destruct (sort_values _ !! k) as [r|]; [|discriminate].
  intros [= <-]. eauto.
Qed.




End Table.

Section InsertionSort.
Variable before : Q -> Q -> bool.
Hypothesis before_true : forall x y, before x y = true -> Qle x y.
Hypothesis before_false : forall x y, before x y = false -> Qle y x.

Lemma insert_by_perm x l : insert_by before x l ≡ₚ x :: l.
Proof.
  induction l as [|y l IH]; cbn; [reflexivity|].
  destruct (before _ _); [reflexivity|].
  rewrite IH. apply perm_swap.
Qed.

Lemma sort_by_perm l : sort_by before l ≡ₚ l.
Proof.
  induction l as [|x l IH]; cbn; [reflexivity|].
  rewrite insert_by_perm. constructor. exact IH.
Qed.

Lemma insert_by_hdrel x y l :
  key_le y x -> HdRel key_le y l -> HdRel key_le y (insert_by before x l).
Proof.
  intros Hyx Hl. destruct l as [|z l]; cbn.
  - constructor. exact Hyx.
  - destruct (before _ _); constructor; [exact Hyx|].
    inversion Hl; assumption.
Qed.

Lemma insert_by_sorted x l : Sorted key_le l -> Sorted key_le (insert_by before x l).
Proof.
  induction 1 as [|y l Hs IH Hhd]; cbn.
  - repeat constructor.
  - destruct (before (fst x) (fst y)) eqn:E.
    + constructor; [constructor; assumption|]. constructor. apply before_true, E.
    + constructor; [exact IH|]. apply insert_by_hdrel; [|exact Hhd].
      apply before_false, E.
Qed.

Lemma sort_by_sorted l : Sorted key_le (sort_by before l).
Proof.
  induction l as [|x l IH]; cbn; [constructor|]. apply insert_by_sorted, IH.
Qed.

Lemma take_at_pairs (a : list Q) (l : list (Q * nat)) :
  Forall (fun p => a !! snd p = Some (fst p)) l ->
  take_at a (map snd l) = map fst l.
Proof.
  induction 1 as [|p l Hp _ IH]; [reflexivity|].
  unfold take_at in *. cbn. rewrite Hp. cbn. f_equal. exact IH.
Qed.

Lemma zip_seq_pairs (a : list Q) :
  Forall (fun p => a !! snd p = Some (fst p)) (zip a (seq 0 (length a))).
Proof.
  apply Forall_lookup. intros i [x j] H.
  apply lookup_zip_with_Some in H as (x' & j' & [= <- <-] & Hx & Hj).
  apply lookup_seq in Hj as [-> _]. exact Hx.
Qed.

Lemma sorted_pairs (a : list Q) :
  Forall (fun p => a !! snd p = Some (fst p)) (sort_by before (zip a (seq 0 (length a)))).
Proof. rewrite sort_by_perm. apply zip_seq_pairs. Qed.

Lemma argsort_by_perm a : argsort_by before a ≡ₚ seq 0 (length a).
Proof.
  unfold argsort_by. rewrite sort_by_perm, map_fmap.
  rewrite snd_zip by (rewrite length_seq; lia). reflexivity.
Qed.

Lemma argsort_by_sorted a : Sorted Qle (take_at a (argsort_by before a)).
Proof.
  unfold argsort_by. rewrite take_at_pairs by apply sorted_pairs.
  rewrite map_fmap. apply (Sorted_fmap fst key_le Qle).
  - intros p q H. exact H.
  - apply sort_by_sorted.
Qed.

End InsertionSort.

Lemma before_stable_true x y : before_stable x y = true -> Qle x y.
Proof. apply Qle_bool_imp_le. Qed.

Lemma before_stable_false x y : before_stable x y = false -> Qle y x.
Proof.
  unfold before_stable. intros H. apply Qlt_le_weak, Qnot_le_lt.
  intros Hle. apply Qle_bool_iff in Hle. congruence.
Qed.



(** numpy's stable kinds ([kind="stable"], [kind="mergesort"]). *)
Definition stable_kind : Argsort :=
  {| argsort := argsort_by before_stable;
     argsort_perm := argsort_by_perm before_stable;
     argsort_sorted := argsort_by_sorted before_stable before_stable_true before_stable_false |}.










Section NargsortOrder.
Context `{A : Argsort}.
Variable items : list (option Q).

Let mask := map isna items.
Let V := omap (fun v => v) (compress (map negb mask) items).
Let I := compress (map negb mask) (seq 0 (length items)).
Let S := argsort (reverse V).
Let T := take_at (reverse I) S.

















End NargsortOrder.





(* ===================================================================== *)
(** * Percentile and category                                              *)
(* ===================================================================== *)




Lemma classificar_celula_bands (p : Q) :
  ((80 <= p)%Q -> classificar_celula p = "Excelente")
  /\ ((60 <= p)%Q -> (p < 80)%Q -> classificar_celula p = "Bom")
  /\ ((40 <= p)%Q -> (p < 60)%Q -> classificar_celula p = "Médio")
  /\ ((20 <= p)%Q -> (p < 40)%Q -> classificar_celula p = "Regular")
  /\ ((p < 20)%Q -> classificar_celula p = "Ruim").
Proof.
  unfold classificar_celula.
  destruct (Qle_bool 80 p) eqn:E80; [apply Qle_bool_imp_le in E80|];
  destruct (Qle_bool 60 p) eqn:E60; try apply Qle_bool_imp_le in E60;
  destruct (Qle_bool 40 p) eqn:E40; try apply Qle_bool_imp_le in E40;
  destruct (Qle_bool 20 p) eqn:E20; try apply Qle_bool_imp_le in E20;
  repeat split; intros; try reflexivity; exfalso;
  repeat match goal with
  | H : Qle_bool ?a ?b = false |- _ =>
      assert (~ (a <= b)%Q) by (intros Hc; apply Qle_bool_iff in Hc; congruence); clear H
  end; lra.
Qed.

(* ===================================================================== *)
(** * Notification and orchestration                                       *)
(* ===================================================================== *)

Lemma run_on_job {St A} (m : M St A) (s : St) (h : Hook) :
  on_job m (s, h) = (fst (m s), (snd (m s), h)).
Proof. unfold on_job, zoom. cbn. destruct (m s); reflexivity. Qed.

Lemma run_on_hook {St A} (m : M Hook A) (s : St) (h : Hook) :
  on_hook m (s, h) = (fst (m h), (s, snd (m h))).
Proof. unfold on_hook, zoom. cbn. destruct (m h); reflexivity. Qed.

Section Webhook.
Context `{H : HttpLib}.

(** [enviar_webhook] records its call and never raises. *)
Lemma enviar_webhook_run id_projeto id_talhao status mensagem (h : Hook) :
  exists h',
    enviar_webhook id_projeto id_talhao status mensagem h = (Ok tt, h')
    /\ calls h' = calls h ++ [{| n_projeto := id_projeto; n_talhao := id_talhao;
                                 n_status := status; n_mensagem := mensagem |}]
    /\ webhook_url h' = webhook_url h.
Proof.
  unfold enviar_webhook. rewrite run_bind. cbn [record_call modify].
  rewrite run_bind. cbn [get].
  destruct h as [[[|c u]|] cs ps]; cbn [webhook_url truthy negb String.eqb calls posts].
  - eexists. split; [reflexivity|]. cbn. auto.
  - rewrite run_try_except, run_bind. unfold post. rewrite run_bind. cbn [modify].
    destruct (requests_post _ _) as [code|e];
      eexists; (split; [reflexivity|]); cbn; auto.
  - eexists. split; [reflexivity|]. cbn. auto.
Qed.

End Webhook.

Section Orchestrator.
Context `{E : Stages St Client} `{H : HttpLib}.

Lemma processar_ortomosaico_run id_projeto id_talhao (s : St) (h : Hook) :
  match criar_diretorio_temporario id_projeto s with
  | (Raised e, s1) =>
      processar_ortomosaico id_projeto id_talhao (s, h) = (Raised e, (s1, h))
  | (Ok tmp_dir, s1) =>
      match etapas id_projeto id_talhao tmp_dir s1 with
      | (Ok _, s2) =>
          exists h',
            processar_ortomosaico id_projeto id_talhao (s, h) = (Ok true, (s2, h'))
            /\ calls h' = calls h ++ [notified id_projeto id_talhao "concluido" None]
      | (Raised e, s2) =>
          exists h',
            processar_ortomosaico id_projeto id_talhao (s, h) = (Ok false, (s2, h'))
            /\ calls h' = calls h ++ [notified id_projeto id_talhao "erro" (Some (str e))]
      end
  end.
Proof.
  unfold processar_ortomosaico. rewrite run_bind, run_on_job.
  destruct (criar_diretorio_temporario id_projeto s) as [[tmp_dir|e] s1]; cbn [fst snd];
    [|reflexivity].
  rewrite run_try_except, run_bind, run_on_job.
  destruct (etapas id_projeto id_talhao tmp_dir s1) as [[[]|e] s2]; cbn [fst snd].
  - rewrite run_bind, run_on_hook.
    destruct (enviar_webhook_run id_projeto id_talhao "concluido" None h)
      as (h' & -> & Hc & _). cbn [fst snd].
    exists h'. split; [reflexivity | exact Hc].
  - rewrite run_bind, run_on_hook.
    destruct (enviar_webhook_run id_projeto id_talhao "erro" (Some (str e)) h)
      as (h' & -> & Hc & _). cbn [fst snd].
    exists h'. split; [reflexivity | exact Hc].
Qed.



Lemma executar_processamento_background_run id_projeto id_talhao (s : St) (h : Hook) :
  exists h0, calls h0 = calls h ++ [notified id_projeto id_talhao "iniciado" None]
  /\ match processar_ortomosaico id_projeto id_talhao (s, h0) with
     | (Ok _, (s1, h1)) =>
         executar_processamento_background id_projeto id_talhao (s, h) = (Ok tt, (s1, h1))
     | (Raised e, (s1, h1)) =>
         exists h2,
           executar_processamento_background id_projeto id_talhao (s, h) = (Ok tt, (s1, h2))
           /\ calls h2 = calls h1 ++ [notified id_projeto id_talhao "erro" (Some (str e))]
     end.
Proof.
  destruct (enviar_webhook_run id_projeto id_talhao "iniciado" None h) as (h0 & Hw & Hc & _).
  exists h0. split; [exact Hc|].
  unfold executar_processamento_background.
  rewrite run_try_except, run_bind, run_on_hook, Hw. cbn [fst snd].
  rewrite run_bind.
  destruct (processar_ortomosaico id_projeto id_talhao (s, h0)) as [[b|e] [s1 h1]].
  - reflexivity.
  - rewrite run_on_hook.
    destruct (enviar_webhook_run id_projeto id_talhao "erro" (Some (str e)) h1)
      as (h2 & -> & Hc2 & _). cbn [fst snd].
    exists h2. split; [reflexivity | exact Hc2].
Qed.

End Orchestrator.

(* ===================================================================== *)
(** * Index values on constant bands                                        *)
(* ===================================================================== *)

(** ** Example data *)

Definition meta_exemplo (n_bandas : nat) (nd : option sample) : Meta :=
  {| driver := "GTiff"; dtype := "uint8"; count := n_bandas; nodata := nd;
     width := 2; height := 2; transform := []; crs := "EPSG:31982" |}.

(** A 2 x 2 raster with four constant bands R=50, G=150, B=50, NIR=200. *)
Definition raster_constante : Raster :=
  {| meta := meta_exemplo 4 None;
     bandas := [replicate 4 (SInt 50); replicate 4 (SInt 150);
                replicate 4 (SInt 50); replicate 4 (SInt 200)] |}.

(** A raster with two bands only. *)
Definition raster_duas_bandas : Raster :=
  {| meta := meta_exemplo 2 None;
     bandas := [replicate 4 (SInt 50); replicate 4 (SInt 150)] |}.

(** A float raster whose nodata value is NaN, with one nodata pixel. *)
Definition raster_nodata_nan : Raster :=
  {| meta := meta_exemplo 3 (Some (SFloat S754_nan));
     bandas := [[SFloat S754_nan; SFloat (of_Z 50)];
                [SFloat S754_nan; SFloat (of_Z 150)];
                [SFloat S754_nan; SFloat (of_Z 50)]] |}.

Definition mundo (files : list (string * File)) : World :=
  {| fs := list_to_map files; trace := [] |}.

(** float32(0.6666667) and float32(0.6). *)
Definition vari_50_150_50 : float32 := S754_finite false 11184811 (-24).



Lemma map_replicate {A B} (f : A -> B) n x : map f (replicate n x) = replicate n (f x).
Proof. induction n; cbn; congruence. Qed.



(* ===================================================================== *)
(** * Guard and clamp                                                       *)
(* ===================================================================== *)

Lemma vari_pixel_clamped r g b : clamped (vari_pixel r g b).
Proof.
  unfold clamped, vari_pixel. destruct (is_nan (vari_ratio r g b)) eqn:E.
  - left. rewrite clip1_is_nan. exact E.
  - right. apply clip1_in_range, E.
Qed.




(* ===================================================================== *)
(** * Failing inputs and the nodata value                                   *)
(* ===================================================================== *)

(** The statistics of a cell without valid sample. *)
Definition stats_nulas : ZonalStats :=
  {| zmin := None; zmax := None; zmean := None; zmedian := None; zstd := None;
     zcount := 0 |}.

Definition stats_de (media : Q) : ZonalStats :=
  {| zmin := Some media; zmax := Some media; zmean := Some media;
     zmedian := Some media; zstd := Some 0%Q; zcount := 1 |}.

(** A toy geometry library: the mask keeps the image as it is; a cell
    without any part has no sample, any other cell has the mean 1/2. *)
Definition geo_exemplo : GeoLib :=
  {| mask := fun src shapes crop all_touched =>
       Ok {| out_image := bandas src; out_height := height (meta src);
             out_width := width (meta src); out_transform := transform (meta src) |};
     zonal_stats1 := fun raster nd g =>
       match g with [] => stats_nulas | _ => stats_de (1 # 2) end |}.

(** C7. When the raster opened has fewer bands than the index needs
    (3 for VARI, max(banda_nir, banda_red) for NDVI, max(banda_nir,
    banda_green) for GNDVI) the computation raises the band-count
    [ValueError] and the world is left as it was: nothing is written. *)
Theorem too_few_bands_raises (w : World) (p out : string) (r : Raster) :
  fs w !! p = Some (FRaster r) ->
  ((count (meta r) < 3) ->
     calcular_vari p out w
     = (Raised (Exn ValueError "O ortomosaico deve ter pelo menos 3 bandas (RGB)"), w))
  /\ (forall banda_nir banda_red,
        count (meta r) < Nat.max banda_nir banda_red ->
        calcular_ndvi p out banda_nir banda_red w
        = (Raised (Exn ValueError ("O ortomosaico deve ter pelo menos "
                                   ++ pretty (Nat.max banda_nir banda_red) ++ " bandas")), w))
  /\ (forall banda_nir banda_green,
        count (meta r) < Nat.max banda_nir banda_green ->
        calcular_gndvi p out banda_nir banda_green w
        = (Raised (Exn ValueError ("O ortomosaico deve ter pelo menos "
                                   ++ pretty (Nat.max banda_nir banda_green) ++ " bandas")), w)).
Proof.
  intros Hf. repeat split.
  - apply calcular_vari_few_bands, Hf.
  - intros. apply (calcular_ndvi_few_bands p out w r); assumption.
  - intros. apply (calcular_gndvi_few_bands p out w r); assumption.
Qed.

Lemma too_few_bands_raises_witness :
  calcular_vari "orto.tif" "vari.tif" (mundo [("orto.tif", FRaster raster_duas_bandas)])
  = (Raised (Exn ValueError "O ortomosaico deve ter pelo menos 3 bandas (RGB)"),
     mundo [("orto.tif", FRaster raster_duas_bandas)]).
Proof.
  apply (too_few_bands_raises (mundo [("orto.tif", FRaster raster_duas_bandas)])
           "orto.tif" "vari.tif" raster_duas_bandas); [reflexivity | cbn; lia].
Defined.

(** C8. With an empty polygon file [recortar] raises before the raster is
    opened or masked, and with an empty grid [gerar_ranking] raises before
    the zonal statistics: the exception is the code's [ValueError], and the
    world (files and trace of library operations) is left as it was. *)
Theorem empty_vector_input_raises `{G : GeoLib} `{A : Argsort}
    (w : World) (orto pol indice grade out : string) :
  fs w !! pol = Some (FGeoJSON []) ->
  fs w !! grade = Some (FGeoJSON []) ->
  recortar orto pol out w
  = (Raised (Exn ValueError "O arquivo do polígono está vazio ou inválido"), w)
  /\ gerar_ranking indice grade out w
     = (Raised (Exn ValueError "A grade de entrada está vazia ou inválida"), w).
Proof.
  intros Hp Hg. split.
  - apply recortar_empty, Hp.
  - apply gerar_ranking_empty, Hg.
Qed.

Lemma empty_vector_input_raises_witness :
  @recortar geo_exemplo "orto.tif" "vazio.geojson" "saida"
    (mundo [("vazio.geojson", FGeoJSON [])])
  = (Raised (Exn ValueError "O arquivo do polígono está vazio ou inválido"),
     mundo [("vazio.geojson", FGeoJSON [])])
  /\ @gerar_ranking geo_exemplo stable_kind "vari.tif" "vazio.geojson" "saida"
       (mundo [("vazio.geojson", FGeoJSON [])])
     = (Raised (Exn ValueError "A grade de entrada está vazia ou inválida"),
        mundo [("vazio.geojson", FGeoJSON [])]).
Proof.
  apply (@empty_vector_input_raises geo_exemplo stable_kind
           (mundo [("vazio.geojson", FGeoJSON [])])
           "orto.tif" "vazio.geojson" "vari.tif" "vazio.geojson" "saida"); reflexivity.
Defined.

(** C10, as the code has it. [calcular_vari] looks at no nodata value:
    whatever the raster declares as nodata, it writes at every pixel the
    clamped ratio of the three samples of that pixel, under metadata that
    declare -9999 as nodata; no written sample equals -9999, and each one
    is NaN or lies in [-1, 1]. *)
Theorem index_never_writes_nodata (w : World) (p out : string) (r : Raster)
    (red green blue : list sample) :
  fs w !! p = Some (FRaster r) ->
  3 <= count (meta r) ->
  bandas r !! 0 = Some red -> bandas r !! 1 = Some green -> bandas r !! 2 = Some blue ->
  length red = length green -> length red = length blue ->
  exists vari,
    calcular_vari p out w
    = (Ok out, written w out (FRaster {| meta := index_meta (meta r);
                                          bandas := [map SFloat vari] |}))
    /\ nodata (index_meta (meta r)) = Some (SFloat NODATA_INDICE)
    /\ length vari = length red
    /\ (forall i sr sg sb,
          red !! i = Some sr -> green !! i = Some sg -> blue !! i = Some sb ->
          vari !! i = Some (vari_pixel (astype_float32 sr) (astype_float32 sg)
                                       (astype_float32 sb)))
    /\ Forall (fun x => Float32.eqb x NODATA_INDICE = false /\ clamped x) vari.
Proof.
  intros Hf Hc Hr Hg Hb Hlg Hlb.
  exists (vari_array (map astype_float32 red) (map astype_float32 green)
                     (map astype_float32 blue)).
  split; [apply (calcular_vari_ok p out w r red green blue); assumption|].
  split; [reflexivity|]. split.
  - rewrite vari_array_length; rewrite !length_map; auto.
  - split.
    + intros i sr sg sb Hsr Hsg Hsb. apply vari_array_lookup.
      * rewrite map_fmap, list_lookup_fmap, Hsr. reflexivity.
      * rewrite map_fmap, list_lookup_fmap, Hsg. reflexivity.
      * rewrite map_fmap, list_lookup_fmap, Hsb. reflexivity.
    + apply vari_array_Forall. intros a b c. split.
      * apply clip1_not_nodata.
      * apply vari_pixel_clamped.
Qed.

Lemma index_never_writes_nodata_witness :
  exists vari,
    calcular_vari "orto.tif" "vari.tif" (mundo [("orto.tif", FRaster raster_constante)])
    = (Ok "vari.tif",
       written (mundo [("orto.tif", FRaster raster_constante)]) "vari.tif"
         (FRaster {| meta := index_meta (meta raster_constante);
                     bandas := [map SFloat vari] |}))
    /\ nodata (index_meta (meta raster_constante)) = Some (SFloat NODATA_INDICE)
    /\ length vari = 4
    /\ (forall i sr sg sb,
          replicate 4 (SInt 50) !! i = Some sr -> replicate 4 (SInt 150) !! i = Some sg ->
          replicate 4 (SInt 50) !! i = Some sb ->
          vari !! i = Some (vari_pixel (astype_float32 sr) (astype_float32 sg)
                                       (astype_float32 sb)))
    /\ Forall (fun x => Float32.eqb x NODATA_INDICE = false /\ clamped x) vari.
Proof.
  apply (index_never_writes_nodata (mundo [("orto.tif", FRaster raster_constante)])
           "orto.tif" "vari.tif" raster_constante
           (replicate 4 (SInt 50)) (replicate 4 (SInt 150)) (replicate 4 (SInt 50)));
    try reflexivity. cbn. lia.
Defined.

(** C10 fails as stated on a float raster whose nodata value is NaN: the
    nodata pixel is computed like any other and NaN is written, which is
    not in [-1, 1]. *)
Lemma nan_nodata_pixel_written_as_nan :
  calcular_vari "orto.tif" "vari.tif" (mundo [("orto.tif", FRaster raster_nodata_nan)])
  = (Ok "vari.tif",
     written (mundo [("orto.tif", FRaster raster_nodata_nan)]) "vari.tif"
       (FRaster {| meta := index_meta (meta raster_nodata_nan);
                   bandas := [[SFloat S754_nan; SFloat vari_50_150_50]] |}))
  /\ in_range f_minus_one f_one S754_nan = false.
Proof.
  split; [|reflexivity].
  rewrite (calcular_vari_ok "orto.tif" "vari.tif" _ raster_nodata_nan
             [SFloat S754_nan; SFloat (of_Z 50)] [SFloat S754_nan; SFloat (of_Z 150)]
             [SFloat S754_nan; SFloat (of_Z 50)]); reflexivity.
Qed.

(* ===================================================================== *)
(** * Order of the ranked grid                                              *)
(* ===================================================================== *)



Section TableOrder.
Context `{A : Argsort}.
Variable cells : list (Feature * ZonalStats).







End TableOrder.

(* ===================================================================== *)
(** * Ranks of all cells                                                    *)
(* ===================================================================== *)

(** ** Example grids *)

Definition quadrado (x y : Q) : Geometry :=
  [[[(x, y); (x + 1, y); (x + 1, y + 1); (x, y + 1); (x, y)]%Q]].

(** A cell inside the raster and a cell without geometry part, which the
    toy library gives no sample. *)
Definition grade_com_celula_vazia : list Feature :=
  [{| geometry := quadrado 0 0; fid := None |}; {| geometry := []; fid := None |}].


Lemma ranking_table_fields `{A : Argsort} cells row :
  row ∈ ranking_table cells ->
  percentil row = calcular_percentil (ranking row) (length cells)
  /\ categoria row = classificar_celula (percentil row)
  /\ 1 <= ranking row <= length cells.
Proof.
  intros Hin. apply list_elem_of_lookup in Hin as [k Hk].
  pose proof (lookup_lt_Some _ _ _ Hk) as Hlt. rewrite ranking_table_length in Hlt.
  apply ranking_table_lookup in Hk as (r & _ & ->). cbn. repeat split; lia.
Qed.




(* ===================================================================== *)
(** * Ties, percentiles, categories                                         *)
(* ===================================================================== *)





Lemma classificar_celula_Qeq p q : Qeq p q -> classificar_celula p = classificar_celula q.
Proof.
  intros H. unfold classificar_celula.
  assert (E : forall c, Qle_bool c p = Qle_bool c q) by (intros c; rewrite H; reflexivity).
  rewrite !E. reflexivity.
Qed.

(** C4. The category is a function of the percentile alone, with
    inclusive lower bounds: >= 80 Excelente, >= 60 Bom, >= 40 Médio,
    >= 20 Regular, otherwise Ruim; the percentiles 80, 60, 40 and 20 fall
    in the upper band. Every row of the ranked grid carries the category
    of its percentile. *)
Theorem category_thresholds :
  (forall p : Q,
     ((80 <= p)%Q -> classificar_celula p = "Excelente")
     /\ ((60 <= p)%Q -> (p < 80)%Q -> classificar_celula p = "Bom")
     /\ ((40 <= p)%Q -> (p < 60)%Q -> classificar_celula p = "Médio")
     /\ ((20 <= p)%Q -> (p < 40)%Q -> classificar_celula p = "Regular")
     /\ ((p < 20)%Q -> classificar_celula p = "Ruim"))
  /\ classificar_celula 80 = "Excelente"
  /\ classificar_celula 60 = "Bom"
  /\ classificar_celula 40 = "Médio"
  /\ classificar_celula 20 = "Regular"
  /\ (forall p q : Q, Qeq p q -> classificar_celula p = classificar_celula q)
  /\ (forall (A : Argsort) cells row,
        row ∈ @ranking_table A cells -> categoria row = classificar_celula (percentil row)).
Proof.
  split; [apply classificar_celula_bands|].
  repeat split; try reflexivity.
  - apply classificar_celula_Qeq.
  - intros A cells row Hin. apply ranking_table_fields in Hin. tauto.
Qed.

(* ===================================================================== *)
(** * The orchestrator                                                      *)
(* ===================================================================== *)

(** The pipeline over local files: the three stages modelled above, a
    storage whose transfers succeed and a report that writes its file. *)
Definition etapas_locais `{GeoLib} `{Argsort} : Stages World unit :=
  {| stage_mkdir := fun _ => mret tt;
     stage_conectar := mret tt;
     stage_baixar_arquivo := fun _ _ destino => mret destino;
     stage_recortar := recortar;
     stage_calcular_vari := calcular_vari;
     stage_gerar_ranking := gerar_ranking;
     stage_gerar_relatorio := fun _ _ _ _ saida =>
       write_file saida (FBytes "relatorio");; mret saida;
     stage_enviar_arquivo := fun _ _ _ => mret None |}.

(** A webhook endpoint that answers 200. *)
Definition http_ok : HttpLib := {| requests_post := fun _ _ => Ok 200 |}.

Definition hook_inicial : Hook :=
  {| webhook_url := Some "http://hook"; calls := []; posts := [] |}.

(** The working directory of project "p1" with its three inputs
    downloaded; the grid has no cell when [grade] is empty. *)
Definition mundo_p1 (grade : list Feature) : World :=
  mundo [("~/processamento_ortomosaicos/tmp/p1/ortomosaico.tif", FRaster raster_constante);
         ("~/processamento_ortomosaicos/tmp/p1/poligono.geojson",
          FGeoJSON [{| geometry := quadrado 0 0; fid := None |}]);
         ("~/processamento_ortomosaicos/tmp/p1/grade_entrada.geojson", FGeoJSON grade)].


(** The empty grid, end to end: the ranking stage raises, the orchestrator
    answers [False] and the webhook receives "erro" with the message. *)
Example processar_ortomosaico_grade_vazia :
  exists w' h',
    @processar_ortomosaico World unit (@etapas_locais geo_exemplo stable_kind) http_ok
      "p1" "t1" (mundo_p1 [], hook_inicial)
    = (Ok false, (w', h'))
    /\ calls h' = [notified "p1" "t1" "erro"
                     (Some "A grade de entrada está vazia ou inválida")]
    /\ fs w' !! "~/processamento_ortomosaicos/tmp/p1/grade_saida.geojson" = None.
Proof. do 2 eexists. split; [vm_compute; reflexivity|]. split; reflexivity. Qed.

Example processar_ortomosaico_concluido :
  exists w' h',
    @processar_ortomosaico World unit (@etapas_locais geo_exemplo stable_kind) http_ok
      "p1" "t1" (mundo_p1 grade_com_celula_vazia, hook_inicial)
    = (Ok true, (w', h'))
    /\ calls h' = [notified "p1" "t1" "concluido" None]
    /\ posts h' = [("http://hook",
                    [("id_projeto", "p1"); ("id_talhao", "t1"); ("status", "concluido")])].
Proof. do 2 eexists. split; [vm_compute; reflexivity|]. split; reflexivity. Qed.

(* ===================================================================== *)
(** * Index statistics: [iv_gen.calcular_estatisticas_indice]            *)
(* ===================================================================== *)

(** The statistics of numpy over an array, as Python floats; [np.min] and
    the like raise on an array without elements. *)
Class NumpyStats := {
  np_min : list sample -> result spec_float;
  np_max : list sample -> result spec_float;
  np_mean : list sample -> result spec_float;
  np_median : list sample -> result spec_float;
  np_std : list sample -> result spec_float;
  np_percentile : list sample -> Z -> result spec_float
}.

Record Estatisticas := {
  e_min : spec_float;
  e_max : spec_float;
  e_media : spec_float;
  e_mediana : spec_float;
  e_desvio_padrao : spec_float;
  e_percentil_25 : spec_float;
  e_percentil_75 : spec_float
}.

(** The result of a library call, in the monad. *)
Definition lift {St A} (r : result A) : M St A :=
  match r with
  | Ok a => mret a
  | Raised e => raise e
  end.

(** [src.nodata]: rasterio gives the nodata value as a Python float. *)
Definition nodata_float (s : sample) : spec_float :=
  match s with
  | SInt z => binary_normalize 53 1024 z 0 false
  | SFloat x => x
  end.

(** One element of [indice != nodata]: a float32 array is compared in
    float32, an integer array in float64. NaN differs from everything. *)
Definition difere (dt : string) (nodata : spec_float) (s : sample) : bool :=
  match s with
  | SInt z => negb (SFeqb (binary_normalize 53 1024 z 0 false) nodata)
  | SFloat x =>
      if String.eqb dt "float32" then negb (Float32.eqb x (Float32.round nodata))
      else negb (SFeqb x nodata)
  end.

Section Estatisticas.
Context `{N : NumpyStats}.

(** The dictionary of the seven statistics. *)
Definition estatisticas_de (indice : list sample) : M World Estatisticas :=
  mn ← lift (np_min indice);
  mx ← lift (np_max indice);
  media ← lift (np_mean indice);
  mediana ← lift (np_median indice);
  desvio ← lift (np_std indice);
  p25 ← lift (np_percentile indice 25);
  p75 ← lift (np_percentile indice 75);
  mret {| e_min := mn; e_max := mx; e_media := media; e_mediana := mediana;
          e_desvio_padrao := desvio; e_percentil_25 := p25; e_percentil_75 := p75 |}.

(** [iv_gen.calcular_estatisticas_indice]. *)
Definition calcular_estatisticas_indice (caminho_indice : string)
  : M World (option Estatisticas) :=
  try_except
    (src ← rasterio_open caminho_indice;
     indice ← read src 1;
     let indice :=
       match nodata (meta src) with
       | Some nd => List.filter (difere (dtype (meta src)) (nodata_float nd)) indice
       | None => indice
       end in
     estatisticas ← estatisticas_de indice;
     mret (Some estatisticas))
    (fun e => mret None).

End Estatisticas.

(* ===================================================================== *)
(** * Hotspots and global metrics of [ranking_gen]                       *)
(* ===================================================================== *)

(** [gpd.read_file] of a grid written by [gerar_ranking], for the functions
    that go on to read its ranking columns: a file without features, or
    with features that do not have these columns, makes the column access
    raise KeyError. *)
Definition gpd_read_ranking (path : string) : M World (list Row) :=
  w ← get;
  match fs w !! path with
  | Some (FRanking (row :: rows)) => mret (row :: rows)
  | Some (FRanking []) | Some (FGeoJSON _) =>
      raise (Exn (OtherError "KeyError") "column not found")
  | Some _ => raise (Exn DriverError (path ++ ": not recognized as a supported file format"))
  | None => raise (Exn DriverError (path ++ ": No such file or directory"))
  end.

(** [ranking_gen.identificar_hotspots]; the default threshold is 90. *)
Definition identificar_hotspots (caminho_grade_ranking : string) (limiar_percentil : Q)
  : M World (option (list Row)) :=
  try_except
    (grade ← gpd_read_ranking caminho_grade_ranking;
     let hotspots := List.filter (fun r => Qle_bool limiar_percentil (percentil r)) grade in
     mret (Some hotspots))
    (fun e => mret None).








Section Metricas.
Context `{P : PandasLib}.


End Metricas.

(* ===================================================================== *)
(** * The route POST /processar of [api]                                 *)
(* ===================================================================== *)

Record ProcessamentoRequest := {
  req_id_projeto : string;
  req_id_talhao : string
}.

Record ProcessamentoResponse := {
  resp_id_projeto : string;
  resp_id_talhao : string;
  resp_status : string;
  resp_mensagem : option string
}.

Class FastApiLib := {
  (** [str(HTTPException(status_code, detail))] *)
  http_exception_str : nat -> string -> string
}.

(** [fastapi.HTTPException(status_code=..., detail=...)]: a subclass of
    [Exception]; the class name carries the status code. *)
Definition HTTPException `{FastApiLib} (status_code : nat) (detail : string) : exn :=
  {| exn_cls := OtherError ("HTTPException " ++ pretty status_code);
     exn_msg := http_exception_str status_code detail |}.

(** [background_tasks.add_task(executar_processamento_background, a, b)]:
    the state is the list of scheduled calls. *)
Definition add_task (id_projeto id_talhao : string) : M (list (string * string)) unit :=
  modify (fun tasks => tasks ++ [(id_projeto, id_talhao)]).

(** [api.iniciar_processamento], the route POST /processar. *)
Definition iniciar_processamento `{FastApiLib} (request : ProcessamentoRequest)
  : M (list (string * string)) ProcessamentoResponse :=
  try_except
    ((if negb (truthy (Some (req_id_projeto request)))
         || negb (truthy (Some (req_id_talhao request)))
      then raise (HTTPException 400 "ID de projeto e talhão são obrigatórios")
      else mret tt);;
     add_task (req_id_projeto request) (req_id_talhao request);;
     mret {| resp_id_projeto := req_id_projeto request;
             resp_id_talhao := req_id_talhao request;
             resp_status := "iniciado";
             resp_mensagem := Some "Processamento iniciado com sucesso" |})
    (fun e => raise (HTTPException 500 (str e))).

(* ===================================================================== *)
(** * Storage: [sb_connect]                                              *)
(* ===================================================================== *)

Section Barra.
Import Stdlib.Strings.Ascii.

(** Python's [s.split('/', 1)]: the text before the first slash and, when
    there is a slash, the text after it. *)
Fixpoint split_barra (s : string) : string * option string :=
  match s with
  | EmptyString => (EmptyString, None)
  | String c s' =>
      if Ascii.eqb c "/"%char then (EmptyString, Some s')
      else let '(a, b) := split_barra s' in (String c a, b)
  end.

End Barra.

(** The requests made to the storage service. *)
Inductive Pedido :=
| PDownload (bucket caminho : string)
| PUpload (bucket caminho : string) (dados : File)
| PList (bucket : string)
| PRemove (bucket : string) (caminhos : list string).

(** The process as [sb_connect] sees it: the local files, the environment
    variables, the variables of the .env file and the requests made so
    far. *)
Record Sb := {
  local : World;
  environ : gmap string string;
  dotenv : gmap string string;
  pedidos : list Pedido
}.

(** The supabase client library. The service answers a request knowing the
    requests made before it. *)
Class SupabaseLib (Client : Type) := {
  create_client : string -> string -> result Client;
  storage_download : Client -> list Pedido -> string -> string -> result File;
  storage_upload : Client -> list Pedido -> string -> string -> File -> result unit;
  storage_get_public_url : Client -> string -> string -> result string;
  storage_list : Client -> list Pedido -> string -> result (list string);
  storage_remove : Client -> list Pedido -> string -> list string -> result unit
}.

Definition on_local {A} (m : M World A) : M Sb A :=
  zoom local (fun w s => {| local := w; environ := environ s; dotenv := dotenv s;
                            pedidos := pedidos s |}) m.

(** [load_dotenv()]: the variables of .env that the environment does not
    define yet are added to it. *)
Definition load_dotenv : M Sb unit :=
  modify (fun s => {| local := local s; environ := environ s ∪ dotenv s;
                      dotenv := dotenv s; pedidos := pedidos s |}).

Definition getenv (name : string) : M Sb (option string) :=
  s ← get; mret (environ s !! name).

Definition pedir {A} (p : Pedido) (resposta : list Pedido -> result A) : M Sb A :=
  s ← get;
  modify (fun s => {| local := local s; environ := environ s; dotenv := dotenv s;
                      pedidos := pedidos s ++ [p] |});;
  match resposta (pedidos s) with
  | Ok a => mret a
  | Raised e => raise e
  end.

Section SbConnect.
Context `{L : SupabaseLib Client}.

(** [sb_connect.conectar]. *)
Definition conectar : M Sb Client :=
  url0 ← getenv "SUPABASE_URL";
  (if negb (truthy url0) then load_dotenv else mret tt);;
  url ← getenv "SUPABASE_URL";
  key ← getenv "SUPABASE_KEY";
  if negb (truthy url) || negb (truthy key)
  then raise (Exn ValueError "Credenciais do Supabase não configuradas no arquivo .env")
  else
    try_except
      (match create_client (default "" url) (default "" key) with
       | Ok client => mret client
       | Raised e => raise e
       end)
      (fun e => raise e).

(** [sb_connect.baixar_arquivo]. *)
Definition baixar_arquivo (client : Client) (caminho_bucket caminho_local : string)
  : M Sb string :=
  try_except
    (let partes := split_barra caminho_bucket in
     let bucket := fst partes in
     let caminho_arquivo := default "" (snd partes) in
     response ← pedir (PDownload bucket caminho_arquivo)
                      (fun antes => storage_download client antes bucket caminho_arquivo);
     on_local (write_file caminho_local response);;
     mret caminho_local)
    (fun e => raise e).

(** [sb_connect.enviar_arquivo]. *)
Definition enviar_arquivo (client : Client) (caminho_local caminho_bucket : string)
  : M Sb (option string) :=
  try_except
    (let partes := split_barra caminho_bucket in
     let bucket := fst partes in
     let caminho_arquivo := default "" (snd partes) in
     s ← get;
     match fs (local s) !! caminho_local with
     | None =>
         raise (Exn FileNotFoundError ("Arquivo " ++ caminho_local ++ " não encontrado"))
     | Some file_data =>
         pedir (PUpload bucket caminho_arquivo file_data)
               (fun antes => storage_upload client antes bucket caminho_arquivo file_data);;
         try_except
           (match storage_get_public_url client bucket caminho_arquivo with
            | Ok url => mret (Some url)
            | Raised e => raise e
            end)
           (fun e => mret None)
     end)
    (fun e => raise e).

(** [sb_connect.listar_arquivos]. *)
Definition listar_arquivos (client : Client) (bucket : string) : M Sb (list string) :=
  try_except
    (pedir (PList bucket) (fun antes => storage_list client antes bucket))
    (fun e => raise e).

(** [sb_connect.excluir_arquivo]. *)
Definition excluir_arquivo (client : Client) (caminho_bucket : string) : M Sb bool :=
  try_except
    (let partes := split_barra caminho_bucket in
     let bucket := fst partes in
     let caminho_arquivo := default "" (snd partes) in
     pedir (PRemove bucket [caminho_arquivo])
           (fun antes => storage_remove client antes bucket [caminho_arquivo]);;
     mret true)
    (fun e => raise e).

End SbConnect.

(** The stages of [main.processar_ortomosaico] as the module imports them:
    the storage functions above and the three processing functions, which
    act on the local files only, as does the report ([relatorio_gen] does
    not import [sb_connect]). *)
Definition etapas_supabase `{GeoLib} `{Argsort} `{SupabaseLib Client}
    (mkdir : string -> M World unit)
    (gerar_relatorio : string -> string -> string -> string -> string -> M World string)
  : Stages Sb Client :=
  {| stage_mkdir := fun d => on_local (mkdir d);
     stage_conectar := conectar;
     stage_baixar_arquivo := baixar_arquivo;
     stage_recortar := fun a b c => on_local (recortar a b c);
     stage_calcular_vari := fun a b => on_local (calcular_vari a b);
     stage_gerar_ranking := fun a b c => on_local (gerar_ranking a b c);
     stage_gerar_relatorio := fun a b c d e => on_local (gerar_relatorio a b c d e);
     stage_enviar_arquivo := enviar_arquivo |}.

(** The requests a complete run makes, in order. *)
Definition pedidos_da_execucao (id_projeto id_talhao : string) (f1 f2 f3 f4 : File)
  : list Pedido :=
  [PDownload "Ortomosaicos" (id_projeto ++ "/ortomosaico.tif");
   PDownload "talhoes" (id_talhao ++ "/poligono.geojson");
   PDownload "talhoes" (id_talhao ++ "/grade_entrada.geojson");
   PUpload "produtos_finais" (id_projeto ++ "/ortomosaico_recortado.tif") f1;
   PUpload "produtos_finais" (id_projeto ++ "/vari.tif") f2;
   PUpload "produtos_finais" (id_projeto ++ "/grade_saida.geojson") f3;
   PUpload "produtos_finais" (id_projeto ++ "/relatorio.pdf") f4]%string.

(* ===================================================================== *)
(** * Quality checks of [recorte_ortomosaico]                            *)
(* ===================================================================== *)

(** IEEE-754 double precision, the Python [float]. *)
Module Float64.

Definition prec : Z := 53.
Definition emax : Z := 1024.

Definition add : spec_float -> spec_float -> spec_float := SFadd prec emax.
Definition div : spec_float -> spec_float -> spec_float := SFdiv prec emax.
Definition of_Z (z : Z) : spec_float := binary_normalize prec emax z 0 false.

End Float64.

(** [.astype(float)]: an integer sample becomes a double; a float sample
    keeps its value. *)
Definition astype_float64 (s : sample) : spec_float :=
  match s with
  | SInt z => Float64.of_Z z
  | SFloat x => x
  end.

(** The Python literal [0.2], default of [limiar]. *)
Definition limiar_padrao : spec_float := Float64.div (Float64.of_Z 2) (Float64.of_Z 10).

(** [src.read(i).astype(float) / 255.0]. *)
Definition normalizada (banda : list sample) : list spec_float :=
  map (fun s => Float64.div (astype_float64 s) (Float64.of_Z 255)) banda.

(** [(red + green + blue) / 3.0]. *)
Definition brilho (red green blue : list spec_float) : list spec_float :=
  map (fun x => Float64.div x (Float64.of_Z 3))
      (zip_with Float64.add (zip_with Float64.add red green) blue).

(** [np.sum(brilho > limiar)]. *)
Definition pixels_acima (limiar : spec_float) (brilho : list spec_float) : nat :=
  length (List.filter (fun x => SFltb limiar x) brilho).

(** [recorte_ortomosaico.verificar_cobertura_nuvens]. *)
Definition verificar_cobertura_nuvens (caminho_ortomosaico : string) (limiar : spec_float)
  : M World (option spec_float) :=
  try_except
    (src ← rasterio_open caminho_ortomosaico;
     red ← read src 1;
     green ← read src 2;
     blue ← read src 3;
     let brilho := brilho (normalizada red) (normalizada green) (normalizada blue) in
     let pixels_nuvem := pixels_acima limiar brilho in
     let total_pixels := length red in
     let porcentagem := Float64.div (Float64.of_Z (Z.of_nat pixels_nuvem))
                                    (Float64.of_Z (Z.of_nat total_pixels)) in
     mret (Some porcentagem))
    (fun e => mret None).





(** The brightness of a gray pixel of an 8-bit image. *)
Definition brilho_cinza (v : Z) : spec_float :=
  let x := Float64.div (Float64.of_Z v) (Float64.of_Z 255) in
  Float64.div (Float64.add (Float64.add x x) x) (Float64.of_Z 3).

(* ===================================================================== *)
(** * Notions used in the statements below                               *)
(* ===================================================================== *)

Local Open Scope Z_scope.

(** A float that is a number: neither NaN nor infinite. *)
Definition is_finite (x : float32) : bool :=
  match x with S754_zero _ | S754_finite _ _ _ => true | _ => false end.

(** The values of an 8-bit band. *)
Definition valores_uint8 : list Z := map Z.of_nat (seq 0 256).

(** A sample of an 8-bit band. *)
Definition uint8 (s : sample) : Prop := exists z, s = SInt z /\ 0 <= z <= 255.

(** When G + R - B = 0 on 8-bit samples, the guarded ratio saturates. *)
Definition saturado (r g : Z) : float32 :=
  if g >? r then f_one else if g <? r then f_minus_one else S754_zero false.

(** The two floats are the same datum (sign of zero included). *)
Definition float_same (x y : float32) : bool :=
  match x, y with
  | S754_zero s, S754_zero s' => Bool.eqb s s'
  | S754_infinity s, S754_infinity s' => Bool.eqb s s'
  | S754_nan, S754_nan => true
  | S754_finite s m e, S754_finite s' m' e' => Bool.eqb s s' && Pos.eqb m m' && Z.eqb e e'
  | _, _ => false
  end.

Local Open Scope nat_scope.

(** A stage run is all-or-nothing on [out] when it either raises and
    leaves the world as it was, or returns [out] having written that file
    only (one write event added to the trace). *)
Definition all_or_nothing (out : string) (w : World) (run : result string * World) : Prop :=
  (exists e, run = (Raised e, w))
  \/ (exists f, run = (Ok out, written w out f)).


(** The JSON body [enviar_webhook] builds. *)
Definition payload_de (id_projeto id_talhao status : string) (mensagem : option string)
  : list (string * string) :=
  [("id_projeto", id_projeto); ("id_talhao", id_talhao); ("status", status)]
  ++ match mensagem with
     | Some m => if String.eqb m "" then [] else [("mensagem", m)]
     | None => []
     end.

Section SemBarra.
Import Stdlib.Strings.Ascii.

(** No slash in the text. *)
Fixpoint sem_barra (s : string) : bool :=
  match s with
  | EmptyString => true
  | String c s' => negb (Ascii.eqb c "/"%char) && sem_barra s'
  end.

End SemBarra.

(** The state after one more request. *)
Definition pedido_feito (s : Sb) (p : Pedido) : Sb :=
  {| local := local s; environ := environ s; dotenv := dotenv s;
     pedidos := pedidos s ++ [p] |}.

(** The environment [conectar] reads the credentials from. *)
Definition ambiente (s : Sb) : gmap string string :=
  if truthy (environ s !! "SUPABASE_URL") then environ s else environ s ∪ dotenv s.

(* ===================================================================== *)
(** * Index values on 8-bit rasters                                      *)
(* ===================================================================== *)

Local Open Scope Z_scope.

(** ** Arithmetic on finite floats never gives NaN *)

Lemma shr_1_nonneg mrs : 0 <= shr_m mrs -> 0 <= shr_m (shr_1 mrs).
Proof.
  destruct mrs as [m r s]. cbn. destruct m as [|[p|p|]|[p|p|]]; cbn; lia.
Qed.

Lemma iter_pos_invariant {A} (P : A -> Prop) (f : A -> A) :
  (forall x, P x -> P (f x)) -> forall n x, P x -> P (SpecFloat.iter_pos f n x).
Proof.
  intros Hf. induction n as [n IH|n IH|]; intros x Hx; cbn; auto.
Qed.

Lemma shr_nonneg mrs e n : 0 <= shr_m mrs -> 0 <= shr_m (fst (shr mrs e n)).
Proof.
  intros H. unfold shr. destruct n; cbn; try exact H.
  apply (iter_pos_invariant (fun x => 0 <= shr_m x)); [apply shr_1_nonneg | exact H].
Qed.

Lemma shr_fexp_nonneg pr em m e l :
  0 <= m -> 0 <= shr_m (fst (shr_fexp pr em m e l)).
Proof.
  intros H. unfold shr_fexp. apply shr_nonneg.
  destruct l as [|[]]; cbn; exact H.
Qed.

Lemma round_nearest_even_nonneg m l : 0 <= m -> 0 <= round_nearest_even m l.
Proof.
  intros H. unfold round_nearest_even. destruct l as [|[]]; try lia.
  destruct (Z.even m); lia.
Qed.

Lemma binary_round_aux_not_nan pr em s m e l :
  0 <= m -> is_nan (binary_round_aux pr em s m e l) = false.
Proof.
  intros H. unfold binary_round_aux.
  pose proof (shr_fexp_nonneg pr em m e l H) as H1.
  destruct (shr_fexp pr em m e l) as [mrs' e'] eqn:E1. cbn [fst] in H1.
  pose proof (shr_fexp_nonneg pr em _ e' loc_Exact
                (round_nearest_even_nonneg _ (loc_of_shr_record mrs') H1)) as H2.
  destruct (shr_fexp pr em (round_nearest_even (shr_m mrs') (loc_of_shr_record mrs')) e' loc_Exact)
    as [mrs'' e''] eqn:E2. cbn [fst] in H2.
  destruct (shr_m mrs'') as [|p|p]; [reflexivity | | lia].
  destruct (e'' <=? em - pr); reflexivity.
Qed.

Lemma binary_normalize_not_nan pr em m e sz :
  is_nan (binary_normalize pr em m e sz) = false.
Proof.
  unfold binary_normalize. destruct m as [|p|p]; [reflexivity | |];
    unfold binary_round; destruct (shl_align _ _ _) as [mz ez];
    apply binary_round_aux_not_nan; lia.
Qed.

Lemma of_Z_not_nan z : is_nan (of_Z z) = false.
Proof. apply binary_normalize_not_nan. Qed.

Lemma add_finite_not_nan x y :
  is_finite x = true -> is_finite y = true -> is_nan (Float32.add x y) = false.
Proof.
  destruct x as [sx| | |sx mx ex], y as [sy| | |sy my ey]; try discriminate; intros _ _.
  - destruct sx, sy; reflexivity.
  - reflexivity.
  - reflexivity.
  - apply binary_normalize_not_nan.
Qed.

Lemma sub_not_nan x y :
  is_nan x = false -> is_finite y = true -> is_nan (Float32.sub x y) = false.
Proof.
  destruct x as [sx|sx| |sx mx ex], y as [sy| | |sy my ey]; try discriminate; intros _ _.
  - destruct sx, sy; reflexivity.
  - reflexivity.
  - reflexivity.
  - reflexivity.
  - reflexivity.
  - apply binary_normalize_not_nan.
Qed.

Lemma div_finite_not_nan x y :
  is_finite x = true -> is_nan y = false -> is_zero y = false ->
  is_nan (Float32.div x y) = false.
Proof.
  destruct x as [sx| | |sx mx ex], y as [sy|sy| |sy my ey]; try discriminate; intros _ _ _;
    try reflexivity.
  unfold Float32.div, SFdiv.
  destruct (SFdiv_core_binary prec emax (Z.pos mx) ex (Z.pos my) ey) as [[mz ez] lz] eqn:E.
  apply binary_round_aux_not_nan.
  unfold SFdiv_core_binary in E.
  set (m' := match _ with Z.pos _ => _ | _ => _ end) in E.
  assert (Hm : 0 <= m').
  { unfold m'. destruct (_ - _ - _) eqn:Es; try lia. apply Z.shiftl_nonneg. lia. }
  pose proof (Z_div_mod m' (Z.pos my) eq_refl) as Hd.
  destruct (Z.div_eucl m' (Z.pos my)) as [q r]. injection E as <- _ _.
  destruct Hd as [Hq Hr]. nia.
Qed.

Lemma uint8_In z : 0 <= z <= 255 -> In z valores_uint8.
Proof.
  intros H. unfold valores_uint8. apply in_map_iff. exists (Z.to_nat z). split; [lia|].
  apply in_seq. lia.
Qed.

Lemma uint8_difference_finite_check :
  forallb (fun g => forallb (fun r => is_finite (Float32.sub (of_Z g) (of_Z r)))
                      valores_uint8) valores_uint8 = true.
Proof. vm_compute. reflexivity. Qed.

Lemma uint8_finite_check : forallb (fun z => is_finite (of_Z z)) valores_uint8 = true.
Proof. vm_compute. reflexivity. Qed.

Lemma uint8_of_Z_finite z : 0 <= z <= 255 -> is_finite (of_Z z) = true.
Proof.
  intros H. pose proof uint8_finite_check as Hc. rewrite forallb_forall in Hc.
  apply Hc, uint8_In, H.
Qed.

Lemma uint8_difference_finite g r :
  0 <= g <= 255 -> 0 <= r <= 255 -> is_finite (Float32.sub (of_Z g) (of_Z r)) = true.
Proof.
  intros Hg Hr. pose proof uint8_difference_finite_check as Hc.
  rewrite forallb_forall in Hc. specialize (Hc g (uint8_In g Hg)).
  rewrite forallb_forall in Hc. apply Hc, uint8_In, Hr.
Qed.

Lemma guard1_not_nan d : is_nan d = false -> is_nan (guard1 d) = false.
Proof. intros H. unfold guard1. destruct (Float32.ltb _ _); [reflexivity | exact H]. Qed.

Lemma vari_pixel_uint8 r g b :
  0 <= r <= 255 -> 0 <= g <= 255 -> 0 <= b <= 255 ->
  in_range f_minus_one f_one (vari_pixel (of_Z r) (of_Z g) (of_Z b)) = true.
Proof.
  intros Hr Hg Hb. unfold vari_pixel. apply clip1_in_range. unfold vari_ratio.
  apply div_finite_not_nan.
  - apply uint8_difference_finite; assumption.
  - apply guard1_not_nan, sub_not_nan; [|apply uint8_of_Z_finite, Hb].
    apply add_finite_not_nan; apply uint8_of_Z_finite; assumption.
  - apply guard1_nonzero.
Qed.

Lemma nd_pixel_uint8 a b :
  0 <= a <= 255 -> 0 <= b <= 255 ->
  in_range f_minus_one f_one (nd_pixel (of_Z a) (of_Z b)) = true.
Proof.
  intros Ha Hb. unfold nd_pixel. apply clip1_in_range. unfold nd_ratio.
  apply div_finite_not_nan.
  - apply uint8_difference_finite; assumption.
  - apply guard1_not_nan, add_finite_not_nan; apply uint8_of_Z_finite; assumption.
  - apply guard1_nonzero.
Qed.

Lemma float_same_eq x y : float_same x y = true -> x = y.
Proof.
  destruct x as [s|s| |s m e], y as [s'|s'| |s' m' e']; cbn; try discriminate; try reflexivity.
  - intros H. apply Bool.eqb_prop in H. congruence.
  - intros H. apply Bool.eqb_prop in H. congruence.
  - intros H. apply andb_prop in H as [H He]. apply andb_prop in H as [Hs Hm].
    apply Bool.eqb_prop in Hs. apply Pos.eqb_eq in Hm. apply Z.eqb_eq in He. congruence.
Qed.

Lemma vari_zero_denominator_check :
  forallb (fun g => forallb (fun r =>
     (255 <? g + r)
     || (float_same (guard1 (Float32.sub (Float32.add (of_Z g) (of_Z r)) (of_Z (g + r))))
                    epsilon
         && float_same (vari_pixel (of_Z r) (of_Z g) (of_Z (g + r))) (saturado r g)))
     valores_uint8) valores_uint8 = true.
Proof. vm_compute. reflexivity. Qed.

Lemma vari_zero_denominator r g :
  0 <= r -> 0 <= g -> g + r <= 255 ->
  guard1 (Float32.sub (Float32.add (of_Z g) (of_Z r)) (of_Z (g + r))) = epsilon
  /\ vari_pixel (of_Z r) (of_Z g) (of_Z (g + r)) = saturado r g.
Proof.
  intros Hr Hg Hs. pose proof vari_zero_denominator_check as Hc.
  rewrite forallb_forall in Hc. specialize (Hc g (uint8_In g ltac:(lia))).
  rewrite forallb_forall in Hc. specialize (Hc r (uint8_In r ltac:(lia))).
  apply orb_prop in Hc as [Hc|Hc]; [apply Z.ltb_lt in Hc; lia|].
  apply andb_prop in Hc as [H1 H2]. split; apply float_same_eq; assumption.
Qed.

Lemma uint8_astype s : uint8 s -> exists z, astype_float32 s = of_Z z /\ 0 <= z <= 255.
Proof. intros (z & -> & Hz). exists z. split; [reflexivity | exact Hz]. Qed.

(** X1. On 8-bit bands the three index computations give a number in
    [-1, 1] at every pixel: no NaN and no value outside the interval. *)
Theorem uint8_index_in_range (a b c : list sample) :
  Forall uint8 a -> Forall uint8 b -> Forall uint8 c ->
  Forall (fun x => in_range f_minus_one f_one x = true)
    (vari_array (map astype_float32 a) (map astype_float32 b) (map astype_float32 c))
  /\ Forall (fun x => in_range f_minus_one f_one x = true)
       (ndvi_array (map astype_float32 a) (map astype_float32 b))
  /\ Forall (fun x => in_range f_minus_one f_one x = true)
       (gndvi_array (map astype_float32 a) (map astype_float32 b)).
Proof.
  intros Ha Hb Hc. split; [|split].
  - revert b c Hb Hc. induction Ha as [|x a Hx Ha IH]; intros b c Hb Hc;
      [destruct b, c; constructor|].
    destruct Hb as [|y b Hy Hb]; [destruct c; constructor|].
    destruct Hc as [|z c Hz Hc]; [constructor|].
    cbn [map]. rewrite vari_array_cons. constructor; [|apply IH; assumption].
    apply uint8_astype in Hx as (x' & -> & Hx), Hy as (y' & -> & Hy), Hz as (z' & -> & Hz).
    apply vari_pixel_uint8; assumption.
  - revert b Hb. induction Ha as [|x a Hx Ha IH]; intros b Hb; [destruct b; constructor|].
    destruct Hb as [|y b Hy Hb]; [constructor|].
    cbn [map]. rewrite ndvi_array_cons. constructor; [|apply IH; assumption].
    apply uint8_astype in Hx as (x' & -> & Hx), Hy as (y' & -> & Hy).
    apply nd_pixel_uint8; assumption.
  - revert b Hb. induction Ha as [|x a Hx Ha IH]; intros b Hb; [destruct b; constructor|].
    destruct Hb as [|y b Hy Hb]; [constructor|].
    cbn [map]. rewrite gndvi_array_cons. constructor; [|apply IH; assumption].
    apply uint8_astype in Hx as (x' & -> & Hx), Hy as (y' & -> & Hy).
    apply nd_pixel_uint8; assumption.
Qed.

Lemma uint8_SInt z : 0 <= z <= 255 -> uint8 (SInt z).
Proof. intros H. exists z. auto. Qed.

Lemma uint8_index_in_range_witness :
  Forall (fun x => in_range f_minus_one f_one x = true)
    (vari_array (map astype_float32 [SInt 0; SInt 255]) (map astype_float32 [SInt 0; SInt 10])
                (map astype_float32 [SInt 0; SInt 255]))
  /\ Forall (fun x => in_range f_minus_one f_one x = true)
       (ndvi_array (map astype_float32 [SInt 0; SInt 255]) (map astype_float32 [SInt 0; SInt 10]))
  /\ Forall (fun x => in_range f_minus_one f_one x = true)
       (gndvi_array (map astype_float32 [SInt 0; SInt 255]) (map astype_float32 [SInt 0; SInt 10])).
Proof.
  apply (uint8_index_in_range [SInt 0; SInt 255] [SInt 0; SInt 10] [SInt 0; SInt 255]);
    repeat constructor; apply uint8_SInt; lia.
Defined.

(** X2. On 8-bit samples with G + R - B = 0 the guard divides by 1e-10
    and the result saturates: VARI is 1 when G > R, -1 when G < R and 0
    when G = R (a black pixel gives 0). *)
Theorem vari_saturates_on_zero_denominator (r g : Z) :
  0 <= r -> 0 <= g -> g + r <= 255 ->
  guard1 (Float32.sub (Float32.add (of_Z g) (of_Z r)) (of_Z (g + r))) = epsilon
  /\ vari_pixel (of_Z r) (of_Z g) (of_Z (g + r))
     = if g >? r then f_one else if g <? r then f_minus_one else S754_zero false.
Proof.
  intros Hr Hg Hs. apply vari_zero_denominator; assumption.
Qed.

Lemma vari_saturates_on_zero_denominator_witness :
  guard1 (Float32.sub (Float32.add (of_Z 200) (of_Z 50)) (of_Z (200 + 50))) = epsilon
  /\ vari_pixel (of_Z 50) (of_Z 200) (of_Z (200 + 50))
     = if 200 >? 50 then f_one else if 200 <? 50 then f_minus_one else S754_zero false.
Proof. apply (vari_saturates_on_zero_denominator 50 200); lia. Defined.

Local Open Scope nat_scope.

(* ===================================================================== *)
(** * Outcomes of the index functions                                    *)
(* ===================================================================== *)

Lemma rasterio_open_cases path (w : World) :
  (exists r, fs w !! path = Some (FRaster r) /\ rasterio_open path w = (Ok r, w))
  \/ (exists e, rasterio_open path w = (Raised e, w)).
Proof.
  unfold rasterio_open. rewrite run_bind. cbn [get].
  destruct (fs w !! path) as [[r| | |]|]; [left; eauto | right; eauto ..].
Qed.

Lemma read_cases src i (w : World) :
  (exists b, read src i w = (Ok b, w)) \/ (exists e, read src i w = (Raised e, w)).
Proof.
  unfold read. destruct i as [|j]; [right; eauto|].
  destruct (bandas src !! j); [left | right]; eauto.
Qed.

Lemma calcular_vari_all_or_nothing p out (w : World) :
  all_or_nothing out w (calcular_vari p out w).
Proof.
  unfold calcular_vari, all_or_nothing. rewrite try_except_reraise, run_bind.
  destruct (rasterio_open_cases p w) as [(r & _ & ->)|(e & ->)]; [|left; eauto].
  destruct (count (meta r) <? 3); [left; eauto|].
  rewrite run_bind. destruct (read_cases r 1 w) as [(b1 & ->)|(e & ->)]; [|left; eauto].
  rewrite run_bind. destruct (read_cases r 2 w) as [(b2 & ->)|(e & ->)]; [|left; eauto].
  rewrite run_bind. destruct (read_cases r 3 w) as [(b3 & ->)|(e & ->)]; [|left; eauto].
  right. eexists. reflexivity.
Qed.

Lemma calcular_ndvi_all_or_nothing p out nir red (w : World) :
  all_or_nothing out w (calcular_ndvi p out nir red w).
Proof.
  unfold calcular_ndvi, all_or_nothing. rewrite try_except_reraise, run_bind.
  destruct (rasterio_open_cases p w) as [(r & _ & ->)|(e & ->)]; [|left; eauto].
  destruct (count (meta r) <? Nat.max nir red); [left; eauto|].
  rewrite run_bind. destruct (read_cases r nir w) as [(b1 & ->)|(e & ->)]; [|left; eauto].
  rewrite run_bind. destruct (read_cases r red w) as [(b2 & ->)|(e & ->)]; [|left; eauto].
  right. eexists. reflexivity.
Qed.

Lemma calcular_gndvi_all_or_nothing p out nir green (w : World) :
  all_or_nothing out w (calcular_gndvi p out nir green w).
Proof.
  unfold calcular_gndvi, all_or_nothing. rewrite try_except_reraise, run_bind.
  destruct (rasterio_open_cases p w) as [(r & _ & ->)|(e & ->)]; [|left; eauto].
  destruct (count (meta r) <? Nat.max nir green); [left; eauto|].
  rewrite run_bind. destruct (read_cases r nir w) as [(b1 & ->)|(e & ->)]; [|left; eauto].
  rewrite run_bind. destruct (read_cases r green w) as [(b2 & ->)|(e & ->)]; [|left; eauto].
  right. eexists. reflexivity.
Qed.

(** X3. The three index functions are all-or-nothing: whatever the input
    and the band numbers, a call either raises and leaves every file and
    the trace as they were, or returns [caminho_saida] after writing that
    one file; no other file is ever changed. *)
Theorem index_functions_all_or_nothing (p out : string) (b1 b2 : nat) (w : World) :
  Forall (fun run => all_or_nothing out w run
                     /\ (forall q, q <> out -> fs (snd run) !! q = fs w !! q))
    [calcular_vari p out w; calcular_ndvi p out b1 b2 w; calcular_gndvi p out b1 b2 w].
Proof.
  assert (Hother : forall run, all_or_nothing out w run ->
            forall q, q <> out -> fs (snd run) !! q = fs w !! q).
  { intros run [(e & ->)|(f & ->)] q Hq; cbn; [reflexivity|].
    apply lookup_insert_ne. congruence. }
  assert (Hall : forall run, all_or_nothing out w run ->
            all_or_nothing out w run
            /\ (forall q, q <> out -> fs (snd run) !! q = fs w !! q)).
  { intros run Hrun. split; [exact Hrun | apply Hother, Hrun]. }
  constructor; [apply Hall, calcular_vari_all_or_nothing|].
  constructor; [apply Hall, calcular_ndvi_all_or_nothing|].
  constructor; [apply Hall, calcular_gndvi_all_or_nothing|].
  constructor.
Qed.

(** X4. NDVI with a band number 0: the band-count test passes (when the
    other band exists) and the read raises IndexError; nothing is
    written. *)
Theorem ndvi_band_zero_raises (p out : string) (w : World) (r : Raster) (banda_red : nat) :
  fs w !! p = Some (FRaster r) ->
  banda_red <= count (meta r) ->
  exists msg, calcular_ndvi p out 0 banda_red w = (Raised (Exn IndexError msg), w).
Proof.
  intros Hf Hc. unfold calcular_ndvi.
  rewrite try_except_reraise, run_bind, (run_rasterio_open _ _ _ Hf).
  destruct (Nat.ltb_spec (count (meta r)) (Nat.max 0 banda_red)) as [Hlt|_]; [cbn in Hlt; lia|].
  rewrite run_bind. cbn [read]. eexists. reflexivity.
Qed.

Lemma ndvi_band_zero_raises_witness :
  exists msg,
    calcular_ndvi "orto.tif" "ndvi.tif" 0 1 (mundo [("orto.tif", FRaster raster_constante)])
    = (Raised (Exn IndexError msg), mundo [("orto.tif", FRaster raster_constante)]).
Proof.
  apply (ndvi_band_zero_raises "orto.tif" "ndvi.tif"
           (mundo [("orto.tif", FRaster raster_constante)]) raster_constante 1);
    [reflexivity | cbn; lia].
Defined.

(* ===================================================================== *)
(** * Statistics of an index file                                        *)
(* ===================================================================== *)

Section EstatisticasFacts.
Context `{N : NumpyStats}.

Lemma run_lift {St A} (r : result A) (s : St) : lift r s = (r, s).
Proof. destruct r; reflexivity. Qed.

Lemma estatisticas_de_world (indice : list sample) (w : World) :
  snd (estatisticas_de indice w) = w.
Proof.
  unfold estatisticas_de.
  repeat (rewrite run_bind, run_lift;
          match goal with |- context [match ?r with Ok _ => _ | Raised _ => _ end] =>
            destruct r; [|reflexivity] end).
  reflexivity.
Qed.

Lemma filter_all {A} (p : A -> bool) (l : list A) :
  Forall (fun x => p x = true) l -> List.filter p l = l.
Proof.
  induction 1 as [|x l Hx _ IH]; [reflexivity|]. cbn. rewrite Hx, IH. reflexivity.
Qed.

Lemma round_nodata : Float32.round NODATA_INDICE = NODATA_INDICE.
Proof. reflexivity. Qed.

(** On a file written by an index function whose samples differ from
    -9999, the nodata filter keeps every sample. *)
Lemma estatisticas_index_file (out : string) (m : Meta) (a : list float32) (w : World) :
  Forall (fun x => Float32.eqb x NODATA_INDICE = false) a ->
  fs w !! out = Some (FRaster {| meta := index_meta m; bandas := [map SFloat a] |}) ->
  calcular_estatisticas_indice out w
  = try_except (estatisticas ← estatisticas_de (map SFloat a); mret (Some estatisticas))
               (fun e => mret None) w.
Proof.
  intros Ha Hf. unfold calcular_estatisticas_indice.
  rewrite !run_try_except, run_bind, (run_rasterio_open _ _ _ Hf).
  rewrite run_bind.
  rewrite (run_read {| meta := index_meta m; bandas := [map SFloat a] |} 0
             (map SFloat a) w eq_refl).
  cbn [meta index_meta nodata dtype nodata_float].
  rewrite filter_all; [reflexivity|].
  apply Forall_forall. intros s Hs. apply list_elem_of_In, in_map_iff in Hs as (x & <- & Hx).
  cbn [difere String.eqb]. rewrite round_nodata.
  apply list_elem_of_In in Hx.
  rewrite (proj1 (Forall_forall _ _) Ha x Hx). reflexivity.
Qed.

(** X5. The statistics of a VARI file are taken over every pixel: the
    file written by [calcular_vari] declares -9999 as nodata, no sample of
    it equals -9999, so the nodata filter of
    [calcular_estatisticas_indice] removes nothing (NaN samples included)
    and the seven statistics are those of the whole index array. *)
Theorem statistics_cover_every_pixel (p out : string) (w : World) (r : Raster)
    (red green blue : list sample) :
  fs w !! p = Some (FRaster r) ->
  3 <= count (meta r) ->
  bandas r !! 0 = Some red -> bandas r !! 1 = Some green -> bandas r !! 2 = Some blue ->
  exists w',
    calcular_vari p out w = (Ok out, w')
    /\ calcular_estatisticas_indice out w'
       = try_except
           (estatisticas ← estatisticas_de
              (map SFloat (vari_array (map astype_float32 red) (map astype_float32 green)
                                      (map astype_float32 blue)));
            mret (Some estatisticas))
           (fun e => mret None) w'.
Proof.
  intros Hf Hc Hr Hg Hb. eexists. split; [apply (calcular_vari_ok _ _ _ _ _ _ _ Hf Hc Hr Hg Hb)|].
  eapply estatisticas_index_file.
  - apply vari_array_Forall. intros x y z. apply clip1_not_nodata.
  - unfold written. cbn [fs]. apply lookup_insert_eq.
Qed.

(** X6. [calcular_estatisticas_indice] never raises and changes nothing;
    it answers None when the path holds no raster, when the raster has no
    band, and when one of the numpy statistics raises (as [np.min] does on
    an array left without samples). *)
Theorem statistics_never_raise (p : string) (w : World) :
  exists res,
    calcular_estatisticas_indice p w = (Ok res, w)
    /\ match fs w !! p with
       | Some (FRaster r) =>
           match bandas r !! 0 with
           | Some banda =>
               let indice :=
                 match nodata (meta r) with
                 | Some nd => List.filter (difere (dtype (meta r)) (nodata_float nd)) banda
                 | None => banda
                 end in
               (forall e, np_min indice = Raised e -> res = None)
               /\ (forall est, res = Some est -> np_min indice = Ok (e_min est)
                               /\ np_max indice = Ok (e_max est))
           | None => res = None
           end
       | _ => res = None
       end.
Proof.
  unfold calcular_estatisticas_indice. rewrite run_try_except, run_bind.
  unfold rasterio_open. rewrite run_bind. cbn [get].
  destruct (fs w !! p) as [[r|g|rows|b]|]; try (eexists; split; reflexivity).
  cbv [ret]. rewrite run_bind. unfold read.
  destruct (bandas r !! 0) as [banda|]; [|eexists; split; reflexivity].
  cbv [ret]. cbv zeta.
  set (indice := match nodata (meta r) with
                 | Some nd => List.filter (difere (dtype (meta r)) (nodata_float nd)) banda
                 | None => banda
                 end).
  rewrite run_bind. unfold estatisticas_de.
  rewrite run_bind, run_lift.
  destruct (np_min indice) as [mn|e1];
    [|eexists; split; [reflexivity|]; split; [reflexivity | discriminate]].
  rewrite run_bind, run_lift.
  destruct (np_max indice) as [mx|e2];
    [|eexists; split; [reflexivity|]; split; discriminate].
  repeat (rewrite run_bind, run_lift;
          match goal with |- context [match ?x with Ok _ => _ | Raised _ => _ end] =>
            destruct x;
            [|eexists; split; [reflexivity|]; split; discriminate] end).
  eexists. split; [reflexivity|]. split; [discriminate|].
  intros est [= <-]. split; reflexivity.
Qed.

End EstatisticasFacts.

(** A stand-in for numpy on the examples: every statistic of an array is
    its first sample and raises on an array without samples. *)
Definition primeiro_valor (l : list sample) : result spec_float :=
  match l with
  | [] => Raised (Exn ValueError "zero-size array to reduction operation")
  | s :: _ => Ok (nodata_float s)
  end.

Definition numpy_exemplo : NumpyStats :=
  {| np_min := primeiro_valor; np_max := primeiro_valor; np_mean := primeiro_valor;
     np_median := primeiro_valor; np_std := primeiro_valor;
     np_percentile := fun l _ => primeiro_valor l |}.

Lemma statistics_cover_every_pixel_witness :
  exists w',
    calcular_vari "orto.tif" "vari.tif" (mundo [("orto.tif", FRaster raster_constante)])
    = (Ok "vari.tif", w')
    /\ @calcular_estatisticas_indice numpy_exemplo "vari.tif" w'
       = try_except
           (estatisticas ← @estatisticas_de numpy_exemplo
              (map SFloat (vari_array (map astype_float32 (replicate 4 (SInt 50)))
                                      (map astype_float32 (replicate 4 (SInt 150)))
                                      (map astype_float32 (replicate 4 (SInt 50)))));
            mret (Some estatisticas))
           (fun e => mret None) w'.
Proof.
  apply (@statistics_cover_every_pixel numpy_exemplo "orto.tif" "vari.tif"
           (mundo [("orto.tif", FRaster raster_constante)]) raster_constante
           (replicate 4 (SInt 50)) (replicate 4 (SInt 150)) (replicate 4 (SInt 50)));
    try reflexivity. cbn. lia.
Defined.

(* ===================================================================== *)
(** * Clipping                                                           *)
(* ===================================================================== *)

(** X7. With at least one polygon, [recortar] opens the raster and masks
    it with every geometry of the file, cropping and keeping all touched
    pixels. When the mask succeeds the output keeps the band count, dtype,
    nodata and CRS of the input and takes its size, transform and bands
    from the mask; when the mask raises, or the raster cannot be opened,
    the exception leaves [recortar] and no file is written. *)
Theorem recortar_outcome `{G : GeoLib} (w : World) (orto pol out : string)
    (f : Feature) (feats : list Feature) :
  fs w !! pol = Some (FGeoJSON (f :: feats)) ->
  match fs w !! orto with
  | Some (FRaster r) =>
      match mask r (map geometry (f :: feats)) true true with
      | Ok m =>
          recortar orto pol out w
          = (Ok out,
             {| fs := <[out := FRaster
                         {| meta := {| driver := "GTiff"; dtype := dtype (meta r);
                                       count := count (meta r); nodata := nodata (meta r);
                                       width := out_width m; height := out_height m;
                                       transform := out_transform m; crs := crs (meta r) |};
                            bandas := out_image m |}]> (fs w);
                trace := trace w ++ [EvMask orto; EvWrite out] |})
      | Raised e =>
          recortar orto pol out w
          = (Raised e, {| fs := fs w; trace := trace w ++ [EvMask orto] |})
      end
  | _ => exists msg, recortar orto pol out w = (Raised (Exn RasterioIOError msg), w)
  end.
Proof.
  intros Hp.
  destruct (fs w !! orto) as [[r|x|x|x]|] eqn:Ho.
  - destruct (mask r (map geometry (f :: feats)) true true) as [m|e] eqn:Hm.
    + rewrite (recortar_ok orto pol out w f feats r m Hp Ho Hm), <- app_assoc. reflexivity.
    + unfold recortar.
      rewrite try_except_reraise, run_bind, (run_gpd_read_file _ _ _ Hp).
      cbn [empty]. rewrite run_bind, (run_rasterio_open _ _ _ Ho). cbv beta iota.
      unfold rasterio_mask. rewrite !run_bind. cbn [log_event modify]. rewrite Hm. reflexivity.
  - unfold recortar. rewrite try_except_reraise, run_bind, (run_gpd_read_file _ _ _ Hp).
    cbn [empty]. rewrite run_bind. unfold rasterio_open. rewrite run_bind. cbn [get].
    rewrite Ho. eexists. reflexivity.
  - unfold recortar. rewrite try_except_reraise, run_bind, (run_gpd_read_file _ _ _ Hp).
    cbn [empty]. rewrite run_bind. unfold rasterio_open. rewrite run_bind. cbn [get].
    rewrite Ho. eexists. reflexivity.
  - unfold recortar. rewrite try_except_reraise, run_bind, (run_gpd_read_file _ _ _ Hp).
    cbn [empty]. rewrite run_bind. unfold rasterio_open. rewrite run_bind. cbn [get].
    rewrite Ho. eexists. reflexivity.
  - unfold recortar. rewrite try_except_reraise, run_bind, (run_gpd_read_file _ _ _ Hp).
    cbn [empty]. rewrite run_bind. unfold rasterio_open. rewrite run_bind. cbn [get].
    rewrite Ho. eexists. reflexivity.
Qed.

Lemma recortar_outcome_witness :
  @recortar geo_exemplo "orto.tif" "talhao.geojson" "recorte.tif"
    (mundo [("orto.tif", FRaster raster_constante);
            ("talhao.geojson", FGeoJSON [{| geometry := quadrado 0 0; fid := None |}])])
  = (Ok "recorte.tif",
     {| fs := <["recorte.tif" := FRaster
                 {| meta := {| driver := "GTiff"; dtype := "uint8"; count := 4;
                               nodata := None; width := 2; height := 2;
                               transform := []; crs := "EPSG:31982" |};
                    bandas := bandas raster_constante |}]>
               (fs (mundo [("orto.tif", FRaster raster_constante);
                           ("talhao.geojson",
                            FGeoJSON [{| geometry := quadrado 0 0; fid := None |}])]));
        trace := [EvMask "orto.tif"; EvWrite "recorte.tif"] |}).
Proof.
  exact (@recortar_outcome geo_exemplo
           (mundo [("orto.tif", FRaster raster_constante);
                   ("talhao.geojson", FGeoJSON [{| geometry := quadrado 0 0; fid := None |}])])
           "orto.tif" "talhao.geojson" "recorte.tif"
           {| geometry := quadrado 0 0; fid := None |} [] eq_refl).
Defined.

(* ===================================================================== *)
(** * Quality checks                                                     *)
(* ===================================================================== *)

Lemma filter_length_bound {A} (p : A -> bool) (l : list A) :
  length (List.filter p l) <= length l.
Proof. induction l as [|x l IH]; cbn; [lia|]. destruct (p x); cbn; lia. Qed.

Lemma zip_with_length_bound {A B C} (f : A -> B -> C) (l : list A) (k : list B) :
  length (zip_with f l k) <= length l.
Proof.
  revert k. induction l as [|x l IH]; intros [|y k]; cbn; try lia.
  specialize (IH k). lia.
Qed.

Lemma pixels_acima_bound limiar (red green blue : list sample) :
  pixels_acima limiar (brilho (normalizada red) (normalizada green) (normalizada blue))
  <= length red.
Proof.
  unfold pixels_acima, brilho, normalizada.
  etransitivity; [apply filter_length_bound|].
  rewrite length_map.
  etransitivity; [apply zip_with_length_bound|].
  etransitivity; [apply zip_with_length_bound|].
  rewrite length_map. lia.
Qed.

Lemma verificar_cobertura_nuvens_run (p : string) (limiar : spec_float) (w : World) :
  verificar_cobertura_nuvens p limiar w
  = (Ok match fs w !! p with
        | Some (FRaster r) =>
            match bandas r !! 0, bandas r !! 1, bandas r !! 2 with
            | Some red, Some green, Some blue =>
                Some (Float64.div
                        (Float64.of_Z (Z.of_nat
                           (pixels_acima limiar
                              (brilho (normalizada red) (normalizada green)
                                      (normalizada blue)))))
                        (Float64.of_Z (Z.of_nat (length red))))
            | _, _, _ => None
            end
        | _ => None
        end, w).
Proof.
  unfold verificar_cobertura_nuvens. rewrite run_try_except, run_bind.
  unfold rasterio_open. rewrite run_bind. cbn [get].
  destruct (fs w !! p) as [[r|g|rows|b]|]; try reflexivity.
  cbv [ret]. rewrite run_bind. unfold read.
  destruct (bandas r !! 0) as [red|]; [|reflexivity].
  cbv [ret]. rewrite run_bind.
  destruct (bandas r !! 1) as [green|]; [|reflexivity].
  cbv [ret]. rewrite run_bind.
  destruct (bandas r !! 2) as [blue|]; reflexivity.
Qed.

Lemma brilho_replicate (n : nat) (v : Z) :
  brilho (normalizada (replicate n (SInt v))) (normalizada (replicate n (SInt v)))
         (normalizada (replicate n (SInt v)))
  = replicate n (brilho_cinza v).
Proof.
  unfold brilho, normalizada, brilho_cinza. rewrite !map_replicate.
  rewrite !zip_with_replicate, map_replicate. reflexivity.
Qed.

Lemma pixels_acima_replicate limiar (n : nat) (x : spec_float) :
  pixels_acima limiar (replicate n x) = if SFltb limiar x then n else 0.
Proof.
  unfold pixels_acima. induction n as [|n IH]; cbn [replicate List.filter].
  - destruct (SFltb limiar x); reflexivity.
  - destruct (SFltb limiar x); cbn [length]; [rewrite IH; reflexivity | exact IH].
Qed.

Lemma brilho_cinza_check :
  forallb (fun v => Bool.eqb (SFltb limiar_padrao (brilho_cinza v)) (51 <=? v)%Z)
          valores_uint8 = true.
Proof. vm_compute. reflexivity. Qed.

Lemma brilho_cinza_limiar (v : Z) :
  (0 <= v <= 255)%Z -> SFltb limiar_padrao (brilho_cinza v) = (51 <=? v)%Z.
Proof.
  intros Hv. pose proof brilho_cinza_check as Hc.
  rewrite forallb_forall in Hc. apply Bool.eqb_prop, Hc, uint8_In, Hv.
Qed.

(** X22. [verificar_cobertura_nuvens] never raises and changes no file.
    On a raster with three readable bands it returns the double-precision
    quotient of the number of pixels whose brightness exceeds the
    threshold by the number of pixels of the first band, the former never
    exceeding the latter; on a raster with fewer than three bands, a file
    of another kind or a missing file it returns None. *)
Theorem cloud_cover_is_share_of_bright_pixels (p : string) (limiar : spec_float)
    (w : World) :
  exists res,
    verificar_cobertura_nuvens p limiar w = (Ok res, w)
    /\ match fs w !! p with
       | Some (FRaster r) =>
           match bandas r !! 0, bandas r !! 1, bandas r !! 2 with
           | Some red, Some green, Some blue =>
               exists n,
                 n = pixels_acima limiar
                       (brilho (normalizada red) (normalizada green) (normalizada blue))
                 /\ n <= length red
                 /\ res = Some (Float64.div (Float64.of_Z (Z.of_nat n))
                                            (Float64.of_Z (Z.of_nat (length red))))
           | _, _, _ => res = None
           end
       | _ => res = None
       end.
Proof.
  eexists. split; [apply verificar_cobertura_nuvens_run|].
  destruct (fs w !! p) as [[r|g|rows|b]|]; try reflexivity.
  destruct (bandas r !! 0) as [red|]; [|reflexivity].
  destruct (bandas r !! 1) as [green|]; [|reflexivity].
  destruct (bandas r !! 2) as [blue|]; [|reflexivity].
  eexists. split; [reflexivity|]. split; [apply pixels_acima_bound | reflexivity].
Qed.

(** X23. With the default threshold 0.2, a uniformly gray 8-bit image of
    level v is counted as cloud at every pixel when v >= 51 and at no
    pixel when v <= 50. Level 51 is 20 % of 255: the sum of the three
    normalised bands rounds up, so that the strict test [brilho > 0.2]
    holds for it. *)
Theorem gray_image_cloud_cover (p : string) (w : World) (r : Raster) (n : nat) (v : Z) :
  fs w !! p = Some (FRaster r) ->
  bandas r !! 0 = Some (replicate n (SInt v)) ->
  bandas r !! 1 = Some (replicate n (SInt v)) ->
  bandas r !! 2 = Some (replicate n (SInt v)) ->
  (0 <= v <= 255)%Z ->
  verificar_cobertura_nuvens p limiar_padrao w
  = (Ok (Some (Float64.div
                 (Float64.of_Z (Z.of_nat (if (51 <=? v)%Z then n else 0)))
                 (Float64.of_Z (Z.of_nat n)))), w).
Proof.
  intros Hf H0 H1 H2 Hv. rewrite verificar_cobertura_nuvens_run, Hf, H0, H1, H2.
  rewrite brilho_replicate, pixels_acima_replicate, (brilho_cinza_limiar v Hv).
  rewrite length_replicate. reflexivity.
Qed.

(** An 8-bit image of three equal constant bands. *)
Definition raster_cinza (v : Z) : Raster :=
  {| meta := meta_exemplo 3 None;
     bandas := [replicate 4 (SInt v); replicate 4 (SInt v); replicate 4 (SInt v)] |}.

Lemma gray_image_cloud_cover_witness :
  verificar_cobertura_nuvens "orto.tif" limiar_padrao
    (mundo [("orto.tif", FRaster (raster_cinza 51))])
  = (Ok (Some (Float64.div (Float64.of_Z (Z.of_nat (if (51 <=? 51)%Z then 4 else 0)))
                           (Float64.of_Z (Z.of_nat 4)))),
     mundo [("orto.tif", FRaster (raster_cinza 51))]).
Proof.
  apply (gray_image_cloud_cover "orto.tif" (mundo [("orto.tif", FRaster (raster_cinza 51))])
           (raster_cinza 51) 4 51); try reflexivity. lia.
Defined.


(* ===================================================================== *)
(** * Identifiers and categories of the ranked grid                      *)
(* ===================================================================== *)

Lemma assign_id_fresh gdf i r :
  existsb (fun r => bool_decide (is_Some (s_id r))) gdf = false ->
  assign_id gdf !! i = Some r -> s_id r = Some (Z.of_nat (S i)).
Proof.
  intros He. unfold assign_id. rewrite He, list_lookup_imap.
  destruct (gdf !! i); [|discriminate]. intros [= <-]. reflexivity.
Qed.

Lemma assign_id_kept gdf :
  existsb (fun r => bool_decide (is_Some (s_id r))) gdf = true -> assign_id gdf = gdf.
Proof. intros He. unfold assign_id. rewrite He. reflexivity. Qed.

Lemma from_features_id cells i r :
  from_features cells !! i = Some r ->
  exists c, cells !! i = Some c /\ s_id r = fid (fst c).
Proof.
  unfold from_features. rewrite list_lookup_imap.
  destruct (cells !! i) as [c|]; [|discriminate]. intros [= <-]. eauto.
Qed.

Lemma existsb_id_from_features cells :
  existsb (fun r => bool_decide (is_Some (s_id r))) (from_features cells)
  = existsb (fun c => bool_decide (is_Some (fid (fst c)))) cells.
Proof.
  unfold from_features.
  assert (H : forall (g : nat -> nat) l,
             existsb (fun r => bool_decide (is_Some (s_id r)))
               (imap (fun i fz => {| s_index := g i; s_geometry := geometry (fst fz);
                                     s_id := fid (fst fz); s_stats := snd fz |}) l)
             = existsb (fun c => bool_decide (is_Some (fid (fst c)))) l).
  { intros g l. revert g. induction l as [|c l IH]; intros g; [reflexivity|].
    cbn. f_equal. apply (IH (fun i => g (S i))). }
  apply (H (fun i => i)).
Qed.

Lemma ranking_table_source `{A : Argsort} cells row :
  row ∈ ranking_table cells ->
  exists r, assign_id (from_features cells) !! index row = Some r
            /\ id row = s_id r.
Proof.
  intros Hin. apply list_elem_of_lookup in Hin as [k Hk].
  apply ranking_table_lookup in Hk as (r & Hr & ->). cbn.
  assert (Hin : r ∈ assign_id (from_features cells)).
  { rewrite <- (sort_values_perm (assign_id (from_features cells))).
    eapply list_elem_of_lookup_2, Hr. }
  apply list_elem_of_lookup in Hin as [i Hi].
  destruct (frame_lookup cells i r Hi) as [-> _]. eauto.
Qed.

(** X8. The identifiers are given before the sort. When no feature of the
    grid carries an [id], the cell at input position i (from 0) gets the
    id i + 1, whatever its rank; when some feature carries one, every cell
    keeps the [id] property of its feature (none stays none). *)
Theorem ids_follow_input_order `{A : Argsort} (cells : list (Feature * ZonalStats)) :
  ((forall c, c ∈ cells -> fid (fst c) = None) ->
   forall row, row ∈ ranking_table cells -> id row = Some (Z.of_nat (index row) + 1)%Z)
  /\ ((exists c, c ∈ cells /\ is_Some (fid (fst c))) ->
      forall row, row ∈ ranking_table cells ->
        exists c, cells !! index row = Some c /\ id row = fid (fst c)).
Proof.
  split.
  - intros Hnone row Hin.
    destruct (ranking_table_source cells row Hin) as (r & Hr & ->).
    assert (He : existsb (fun r => bool_decide (is_Some (s_id r))) (from_features cells)
                 = false).
    { rewrite existsb_id_from_features. apply not_true_is_false. intros He.
      apply existsb_exists in He as (c & Hc & Hd).
      apply bool_decide_eq_true in Hd. rewrite (Hnone c) in Hd; [destruct Hd; discriminate|].
      apply list_elem_of_In, Hc. }
    rewrite (assign_id_fresh _ _ _ He Hr). f_equal. lia.
  - intros (c0 & Hc0 & Hsome) row Hin.
    destruct (ranking_table_source cells row Hin) as (r & Hr & ->).
    rewrite assign_id_kept in Hr.
    + apply from_features_id in Hr as (c & Hc & Hid). eauto.
    + rewrite existsb_id_from_features. apply existsb_exists. exists c0. split.
      * apply list_elem_of_In, Hc0.
      * apply bool_decide_eq_true, Hsome.
Qed.




(* ===================================================================== *)
(** * Hotspots                                                           *)
(* ===================================================================== *)

Lemma run_gpd_read_ranking path (w : World) :
  match fs w !! path with
  | Some (FRanking (row :: rows)) => gpd_read_ranking path w = (Ok (row :: rows), w)
  | _ => exists e, gpd_read_ranking path w = (Raised e, w)
  end.
Proof.
  unfold gpd_read_ranking. rewrite run_bind. cbn [get].
  destruct (fs w !! path) as [[| |[|row rows]|]|]; try reflexivity; eexists; reflexivity.
Qed.

Lemma filter_sublist_bool {A} (p : A -> bool) (l : list A) : sublist (List.filter p l) l.
Proof.
  induction l as [|x l IH]; cbn; [constructor|].
  destruct (p x); [apply sublist_skip | apply sublist_cons]; exact IH.
Qed.

(** X10. [identificar_hotspots] never raises and changes nothing: on a
    ranked grid it returns, in the order of the file, exactly the rows
    whose percentile is at least the threshold; on any other file, a file
    without features or a missing file it returns None. *)
Theorem hotspots_are_rows_above_threshold (w : World) (path : string) (limiar : Q) :
  match fs w !! path with
  | Some (FRanking (row :: rows')) =>
      let rows := row :: rows' in
      exists hs,
        identificar_hotspots path limiar w = (Ok (Some hs), w)
        /\ sublist hs rows
        /\ (forall r, r ∈ hs <-> r ∈ rows /\ (limiar <= percentil r)%Q)
  | _ => identificar_hotspots path limiar w = (Ok None, w)
  end.
Proof.
  unfold identificar_hotspots. rewrite run_try_except, run_bind.
  pose proof (run_gpd_read_ranking path w) as Hread.
  destruct (fs w !! path) as [[r|g|[|row rows]|b]|].
  1, 2, 3, 5, 6: destruct Hread as [e He]; rewrite He; reflexivity.
  rewrite Hread. eexists. split; [reflexivity|]. split; [apply filter_sublist_bool|].
  intros r. rewrite !list_elem_of_In, filter_In, Qle_bool_iff. reflexivity.
Qed.



(* ===================================================================== *)
(** * Global metrics                                                     *)
(* ===================================================================== *)








(* ===================================================================== *)
(** * Notifications and the route                                        *)
(* ===================================================================== *)

Section WebhookPayload.
Context `{H : HttpLib}.

(** X13. What [enviar_webhook] sends: nothing when WEBHOOK_URL is unset or
    empty; otherwise exactly one POST to that URL, whose body has the two
    ids and the status, and the key "mensagem" only for a non-empty
    message. Whatever the endpoint answers, an exception included, the
    function returns normally. *)
Theorem webhook_posts_once (id_projeto id_talhao status : string)
    (mensagem : option string) (h : Hook) :
  enviar_webhook id_projeto id_talhao status mensagem h
  = (Ok tt,
     {| webhook_url := webhook_url h;
        calls := calls h ++ [notified id_projeto id_talhao status mensagem];
        posts := match webhook_url h with
                 | Some url =>
                     if String.eqb url "" then posts h
                     else posts h ++ [(url, payload_de id_projeto id_talhao status mensagem)]
                 | None => posts h
                 end |}).
Proof.
  unfold enviar_webhook, payload_de, notified. rewrite run_bind. cbn [record_call modify].
  rewrite run_bind. cbn [get].
  destruct h as [[[|c u]|] cs ps]; cbn [webhook_url truthy negb String.eqb calls posts];
    try reflexivity.
  rewrite run_try_except, run_bind. unfold post. rewrite run_bind.
  cbn [modify webhook_url calls posts default].
  assert (Hp : (if truthy mensagem
                then [("id_projeto", id_projeto); ("id_talhao", id_talhao); ("status", status)]
                     ++ [("mensagem", default "" mensagem)]
                else [("id_projeto", id_projeto); ("id_talhao", id_talhao); ("status", status)])
               = [("id_projeto", id_projeto); ("id_talhao", id_talhao); ("status", status)]
                 ++ match mensagem with
                    | Some m => if String.eqb m "" then [] else [("mensagem", m)]
                    | None => []
                    end).
  { destruct mensagem as [m|]; cbn [truthy default]; [|reflexivity].
    destruct (String.eqb m ""); reflexivity. }
  rewrite Hp.
  destruct (requests_post _ _) as [code|e]; reflexivity.
Qed.

End WebhookPayload.

Section BackgroundJob.
Context `{E : Stages St Client} `{H : HttpLib}.

(** X14. A background job never raises and calls [enviar_webhook] exactly
    twice: first with status "iniciado", then once with "concluido" or
    "erro". *)
Theorem background_job_notifies_twice (id_projeto id_talhao : string) (s : St) (h : Hook) :
  exists s' h' status mensagem,
    executar_processamento_background id_projeto id_talhao (s, h) = (Ok tt, (s', h'))
    /\ calls h' = calls h ++ [notified id_projeto id_talhao "iniciado" None;
                              notified id_projeto id_talhao status mensagem]
    /\ (status = "concluido" /\ mensagem = None
        \/ status = "erro" /\ exists e, mensagem = Some (str e)).
Proof.
  destruct (executar_processamento_background_run id_projeto id_talhao s h)
    as (h0 & Hc0 & Hrun).
  pose proof (processar_ortomosaico_run id_projeto id_talhao s h0) as Hp.
  destruct (criar_diretorio_temporario id_projeto s) as [[tmp_dir|e] s1].
  - destruct (etapas id_projeto id_talhao tmp_dir s1) as [[u|e] s2].
    + destruct Hp as (h1 & Hp & Hc1). rewrite Hp in Hrun.
      exists s2, h1, "concluido", None. split; [exact Hrun|].
      split; [|left; auto]. rewrite Hc1, Hc0, <- app_assoc. reflexivity.
    + destruct Hp as (h1 & Hp & Hc1). rewrite Hp in Hrun.
      exists s2, h1, "erro", (Some (str e)). split; [exact Hrun|].
      split; [|right; eauto]. rewrite Hc1, Hc0, <- app_assoc. reflexivity.
  - rewrite Hp in Hrun. destruct Hrun as (h2 & Hrun & Hc2).
    exists s1, h2, "erro", (Some (str e)). split; [exact Hrun|].
    split; [|right; eauto]. rewrite Hc2, Hc0, <- app_assoc. reflexivity.
Qed.

End BackgroundJob.

Section Route.
Context `{F : FastApiLib}.

(** X15. The route POST /processar: with two non-empty ids it schedules
    exactly one background job with these ids and answers "iniciado"; with
    an empty id it schedules nothing, and the HTTPException 400 raised by
    the validation is caught by the route's own handler, so that the
    request is answered with status 500. *)
Theorem route_validation_answers_500 (request : ProcessamentoRequest)
    (tasks : list (string * string)) :
  if String.eqb (req_id_projeto request) "" || String.eqb (req_id_talhao request) ""
  then iniciar_processamento request tasks
       = (Raised (HTTPException 500
                    (str (HTTPException 400 "ID de projeto e talhão são obrigatórios"))),
          tasks)
       /\ exn_cls (HTTPException 500
                    (str (HTTPException 400 "ID de projeto e talhão são obrigatórios")))
          = OtherError "HTTPException 500"
  else iniciar_processamento request tasks
       = (Ok {| resp_id_projeto := req_id_projeto request;
                resp_id_talhao := req_id_talhao request;
                resp_status := "iniciado";
                resp_mensagem := Some "Processamento iniciado com sucesso" |},
          tasks ++ [(req_id_projeto request, req_id_talhao request)]).
Proof.
  unfold iniciar_processamento. rewrite run_try_except, run_bind.
  cbn [truthy]. rewrite !negb_involutive.
  destruct (String.eqb (req_id_projeto request) "" || String.eqb (req_id_talhao request) "").
  - split; reflexivity.
  - reflexivity.
Qed.

End Route.

(* ===================================================================== *)
(** * Storage                                                            *)
(* ===================================================================== *)

Section BucketPath.
Import Stdlib.Strings.Ascii.

Lemma split_barra_join (b r : string) :
  sem_barra b = true -> split_barra (b ++ "/" ++ r) = (b, Some r).
Proof.
  induction b as [|c b IH]; [reflexivity|].
  change (String c b +:+ "/" +:+ r) with (String c (b +:+ "/" +:+ r)).
  cbn -[Ascii.eqb].
  intros [Hc Hb]%andb_prop. apply negb_true_iff in Hc. rewrite Hc, (IH Hb). reflexivity.
Qed.

Lemma split_barra_parts (s : string) :
  sem_barra (fst (split_barra s)) = true
  /\ s = (fst (split_barra s)
          ++ match snd (split_barra s) with Some r => "/" ++ r | None => "" end)%string.
Proof.
  induction s as [|c s [IH1 IH2]]; cbn -[Ascii.eqb]; [split; reflexivity|].
  destruct (Ascii.eqb c "/") eqn:Hc.
  - apply Ascii.eqb_eq in Hc as ->. split; reflexivity.
  - destruct (split_barra s) as [a b]. cbn -[Ascii.eqb] in *.
    rewrite Hc, IH1. split; [reflexivity|].
    change (String c a +:+ ?x) with (String c (a +:+ x)). f_equal. exact IH2.
Qed.

(** X16. The bucket and the file path are the two sides of the first slash
    of the bucket path: a bucket name without slash and any path are
    recovered from their join; in general the bucket has no slash and
    joining the parts gives the bucket path back (without slash, the whole
    text is the bucket and the file path is empty). *)
Theorem bucket_path_round_trip :
  (forall b r, sem_barra b = true -> split_barra (b ++ "/" ++ r) = (b, Some r))
  /\ (forall s, sem_barra (fst (split_barra s)) = true
                /\ s = (fst (split_barra s)
                        ++ match snd (split_barra s) with
                           | Some r => "/" ++ r
                           | None => ""
                           end)%string)
  /\ (forall s, sem_barra s = true -> split_barra s = (s, None)).
Proof.
  split; [exact split_barra_join|]. split; [exact split_barra_parts|].
  induction s as [|c s IH]; cbn -[Ascii.eqb]; [reflexivity|].
  intros [Hc Hb]%andb_prop. apply negb_true_iff in Hc. rewrite Hc, (IH Hb). reflexivity.
Qed.

End BucketPath.

Lemma run_on_local {A} (m : M World A) (s : Sb) :
  on_local m s = (fst (m (local s)),
                  {| local := snd (m (local s)); environ := environ s;
                     dotenv := dotenv s; pedidos := pedidos s |}).
Proof. unfold on_local, zoom. destruct (m (local s)); reflexivity. Qed.

Lemma run_pedir {A} (p : Pedido) (resposta : list Pedido -> result A) (s : Sb) :
  pedir p resposta s = (resposta (pedidos s), pedido_feito s p).
Proof.
  unfold pedir. rewrite run_bind. cbn [get]. rewrite run_bind. cbn [modify].
  destruct (resposta (pedidos s)); reflexivity.
Qed.

Section SbConnectFacts.
Context `{L : SupabaseLib Client}.

Lemma conectar_run (s : Sb) :
  conectar s
  = (if truthy (ambiente s !! "SUPABASE_URL") && truthy (ambiente s !! "SUPABASE_KEY")
     then create_client (default "" (ambiente s !! "SUPABASE_URL"))
                        (default "" (ambiente s !! "SUPABASE_KEY"))
     else Raised (Exn ValueError "Credenciais do Supabase não configuradas no arquivo .env"),
     {| local := local s; environ := ambiente s; dotenv := dotenv s;
        pedidos := pedidos s |}).
Proof.
  destruct s as [w env de ps].
  unfold conectar, ambiente, getenv, load_dotenv.
  cbv [mbind mret M_bind M_ret bind ret get modify try_except raise
       environ local dotenv pedidos].
  destruct (truthy (env !! "SUPABASE_URL")) eqn:Hu; cbv [negb].
  - rewrite Hu. cbv [orb andb].
    destruct (truthy (env !! "SUPABASE_KEY")); cbv [negb]; [|reflexivity].
    destruct (create_client _ _); reflexivity.
  - destruct (truthy ((env ∪ de) !! "SUPABASE_URL")); cbv [negb orb andb]; [|reflexivity].
    destruct (truthy ((env ∪ de) !! "SUPABASE_KEY")); cbv [negb]; [|reflexivity].
    destruct (create_client _ _); reflexivity.
Qed.

Lemma baixar_arquivo_run (client : Client) (caminho_bucket caminho_local : string) (s : Sb) :
  let bucket := fst (split_barra caminho_bucket) in
  let caminho_arquivo := default "" (snd (split_barra caminho_bucket)) in
  let s1 := pedido_feito s (PDownload bucket caminho_arquivo) in
  baixar_arquivo client caminho_bucket caminho_local s
  = match storage_download client (pedidos s) bucket caminho_arquivo with
    | Ok response =>
        (Ok caminho_local,
         {| local := written (local s) caminho_local response; environ := environ s;
            dotenv := dotenv s; pedidos := pedidos s1 |})
    | Raised e => (Raised e, s1)
    end.
Proof.
  cbv zeta. unfold baixar_arquivo. rewrite run_try_except. cbv zeta.
  rewrite run_bind, run_pedir.
  destruct (storage_download _ _ _ _) as [response|e]; [|reflexivity].
  rewrite run_bind, run_on_local. reflexivity.
Qed.

Lemma enviar_arquivo_run (client : Client) (caminho_local caminho_bucket : string) (s : Sb) :
  let bucket := fst (split_barra caminho_bucket) in
  let caminho_arquivo := default "" (snd (split_barra caminho_bucket)) in
  enviar_arquivo client caminho_local caminho_bucket s
  = match fs (local s) !! caminho_local with
    | None =>
        (Raised (Exn FileNotFoundError ("Arquivo " ++ caminho_local ++ " não encontrado")), s)
    | Some file_data =>
        (match storage_upload client (pedidos s) bucket caminho_arquivo file_data with
         | Ok _ => match storage_get_public_url client bucket caminho_arquivo with
                   | Ok url => Ok (Some url)
                   | Raised _ => Ok None
                   end
         | Raised e => Raised e
         end,
         pedido_feito s (PUpload bucket caminho_arquivo file_data))
    end.
Proof.
  cbv zeta. unfold enviar_arquivo. rewrite run_try_except. cbv zeta.
  rewrite run_bind. cbn [get].
  destruct (fs (local s) !! caminho_local) as [file_data|]; [|reflexivity].
  rewrite run_bind, run_pedir.
  destruct (storage_upload _ _ _ _ _) as [u|e]; [|reflexivity].
  rewrite run_try_except.
  destruct (storage_get_public_url _ _ _); reflexivity.
Qed.

End SbConnectFacts.

Section SbConnectTheorems.
Context `{L : SupabaseLib Client}.

(** X17. [conectar] reads the .env file only when SUPABASE_URL is unset or
    empty in the environment: with SUPABASE_URL set there and SUPABASE_KEY
    not, it raises ValueError and changes nothing, whatever the .env file
    defines. *)
Theorem env_url_hides_dotenv_key (s : Sb) :
  truthy (environ s !! "SUPABASE_URL") = true ->
  truthy (environ s !! "SUPABASE_KEY") = false ->
  conectar s
  = (Raised (Exn ValueError "Credenciais do Supabase não configuradas no arquivo .env"), s).
Proof.
  intros Hu Hk. rewrite conectar_run. unfold ambiente. rewrite Hu. cbv iota.
  rewrite Hu, Hk. destruct s; reflexivity.
Qed.

(** X18. [conectar] makes no request and touches no local file; it returns
    a client only when, after the call, the environment holds a non-empty
    SUPABASE_URL and a non-empty SUPABASE_KEY, and the variables the
    environment had are never overwritten by the .env file. *)
Theorem conectar_needs_credentials (s : Sb) :
  pedidos (snd (conectar s)) = pedidos s
  /\ local (snd (conectar s)) = local s
  /\ (forall client, fst (conectar s) = Ok client ->
        truthy (environ (snd (conectar s)) !! "SUPABASE_URL") = true
        /\ truthy (environ (snd (conectar s)) !! "SUPABASE_KEY") = true)
  /\ (forall k v, environ s !! k = Some v -> environ (snd (conectar s)) !! k = Some v).
Proof.
  rewrite conectar_run. cbn [fst snd pedidos local environ].
  split; [reflexivity|]. split; [reflexivity|]. split.
  - intros client.
    destruct (truthy (ambiente s !! "SUPABASE_URL")),
             (truthy (ambiente s !! "SUPABASE_KEY")); cbn [andb]; auto; discriminate.
  - intros k v Hk. unfold ambiente. destruct (truthy _); [exact Hk|].
    apply lookup_union_Some_l. exact Hk.
Qed.

(** X19. [enviar_arquivo] sends what the local file holds: without the
    local file it raises FileNotFoundError and makes no request; with it,
    it makes exactly one upload request, to the bucket before the first
    slash of the bucket path, with the file's content, and changes no
    local file. A failed upload is re-raised; a failure of the public URL
    alone gives None. *)
Theorem upload_needs_local_file (client : Client) (caminho_local caminho_bucket : string)
    (s : Sb) :
  match fs (local s) !! caminho_local with
  | None =>
      enviar_arquivo client caminho_local caminho_bucket s
      = (Raised (Exn FileNotFoundError ("Arquivo " ++ caminho_local ++ " não encontrado")), s)
  | Some file_data =>
      let bucket := fst (split_barra caminho_bucket) in
      let caminho_arquivo := default "" (snd (split_barra caminho_bucket)) in
      enviar_arquivo client caminho_local caminho_bucket s
      = (match storage_upload client (pedidos s) bucket caminho_arquivo file_data with
         | Ok _ => match storage_get_public_url client bucket caminho_arquivo with
                   | Ok url => Ok (Some url)
                   | Raised _ => Ok None
                   end
         | Raised e => Raised e
         end,
         pedido_feito s (PUpload bucket caminho_arquivo file_data))
  end.
Proof.
  pose proof (enviar_arquivo_run client caminho_local caminho_bucket s) as Hrun.
  cbv zeta in Hrun. destruct (fs (local s) !! caminho_local); exact Hrun.
Qed.


End SbConnectTheorems.

(** A storage service that accepts every request. *)
Definition supabase_exemplo : SupabaseLib unit :=
  {| create_client := fun _ _ => Ok tt;
     storage_download := fun _ _ _ _ => Ok (FBytes "");
     storage_upload := fun _ _ _ _ _ => Ok tt;
     storage_get_public_url := fun _ bucket caminho => Ok (bucket ++ "/" ++ caminho)%string;
     storage_list := fun _ _ _ => Ok [];
     storage_remove := fun _ _ _ _ => Ok tt |}.

(** A process whose environment defines SUPABASE_URL only, the key being
    in the .env file. *)
Definition processo_sem_chave : Sb :=
  {| local := mundo [];
     environ := {[ "SUPABASE_URL" := "https://projeto.supabase.co" ]};
     dotenv := {[ "SUPABASE_KEY" := "chave" ]};
     pedidos := [] |}.

Lemma env_url_hides_dotenv_key_witness :
  @conectar unit supabase_exemplo processo_sem_chave
  = (Raised (Exn ValueError "Credenciais do Supabase não configuradas no arquivo .env"),
     processo_sem_chave).
Proof.
  apply (@env_url_hides_dotenv_key unit supabase_exemplo processo_sem_chave); reflexivity.
Defined.

(* ===================================================================== *)
(** * The requests of a run                                              *)
(* ===================================================================== *)

Lemma split_ortomosaicos (x : string) :
  split_barra ("Ortomosaicos/" ++ x) = ("Ortomosaicos"%string, Some x).
Proof. exact (split_barra_join "Ortomosaicos" x eq_refl). Qed.

Lemma split_talhoes (x : string) :
  split_barra ("talhoes/" ++ x) = ("talhoes"%string, Some x).
Proof. exact (split_barra_join "talhoes" x eq_refl). Qed.

Lemma split_produtos_finais (x : string) :
  split_barra ("produtos_finais/" ++ x) = ("produtos_finais"%string, Some x).
Proof. exact (split_barra_join "produtos_finais" x eq_refl). Qed.

(** Proof steps for the run of the stages: name the state reached and keep
    what it says about the requests. *)
Ltac fixar :=
  match goal with
  | |- context [ (_ ≫= _) ?st ] =>
      let s' := fresh "s" in
      let Hs := fresh "Hped" in
      let Hl := fresh "Hloc" in
      set (s' := st);
      assert (Hs : pedidos s' = pedidos st) by reflexivity;
      cbn [pedidos pedido_feito] in Hs;
      clearbody s'
  | |- context [ (Ok tt, ?st) ] =>
      let s' := fresh "s" in
      let Hs := fresh "Hped" in
      set (s' := st);
      assert (Hs : pedidos s' = pedidos st) by reflexivity;
      cbn [pedidos pedido_feito] in Hs;
      clearbody s'
  end.

Ltac leaf :=
  rewrite ?run_ret;
  cbn [snd fst pedidos pedido_feito];
  repeat match goal with H : pedidos _ = _ |- _ => rewrite H; clear H end;
  rewrite <- ?app_assoc;
  eexists _, _, _, _, _; split; [first [reflexivity | symmetry; apply app_nil_r]|];
  split; [eexists; reflexivity | first [discriminate | intros _; reflexivity]].

Ltac baixar :=
  rewrite run_bind, baixar_arquivo_run, ?split_ortomosaicos, ?split_talhoes;
  cbv zeta; cbn [fst snd default from_option Datatypes.id];
  destruct (storage_download _ _ _ _) as [?|?].

Ltac no_local :=
  rewrite run_bind, run_on_local;
  match goal with
  | |- context [ fst (?m (local ?st)) ] => destruct (m (local st)) as [[?|?] ?]
  end;
  cbn [fst snd].

Ltac enviar :=
  rewrite run_bind, enviar_arquivo_run, ?split_produtos_finais;
  cbv zeta; cbn [fst snd default from_option Datatypes.id];
  match goal with
  | |- context [ fs (local ?st) !! ?p ] => destruct (fs (local st) !! p) as [?|]
  end;
  [ destruct (storage_upload _ _ _ _ _) as [?|?];
    [ destruct (storage_get_public_url _ _ _) as [?|?] | ] | ].

Section Pipeline.
Context `{G : GeoLib} `{A : Argsort} `{L : SupabaseLib Client}.
Variable mkdir : string -> M World unit.
Variable gerar_relatorio : string -> string -> string -> string -> string -> M World string.

Lemma etapas_pedidos (id_projeto id_talhao tmp_dir : string) (s : Sb) :
  exists f1 f2 f3 f4 novos,
    pedidos (snd (@etapas Sb Client (etapas_supabase mkdir gerar_relatorio)
                    id_projeto id_talhao tmp_dir s))
    = pedidos s ++ novos
    /\ novos `prefix_of` pedidos_da_execucao id_projeto id_talhao f1 f2 f3 f4
    /\ (fst (@etapas Sb Client (etapas_supabase mkdir gerar_relatorio)
               id_projeto id_talhao tmp_dir s) = Ok tt ->
        novos = pedidos_da_execucao id_projeto id_talhao f1 f2 f3 f4).
Proof.
  unfold etapas. cbv zeta.
  cbn [stage_conectar stage_baixar_arquivo stage_recortar stage_calcular_vari
       stage_gerar_ranking stage_gerar_relatorio stage_enviar_arquivo etapas_supabase].
  rewrite run_bind, conectar_run.
  destruct (truthy _ && truthy _); [destruct (create_client _ _) as [client|e]|]; [|leaf|leaf].
  fixar.
  do 3 (baixar; [|leaf]; fixar).
  do 4 (no_local; [|leaf]; fixar).
  do 3 (enviar; [| |leaf|leaf]; fixar).
  all: enviar; leaf.
  Unshelve. all: exact (FBytes "").
Qed.

Context `{H : HttpLib}.

(** X21. The requests of a run of [processar_ortomosaico] over the
    storage functions of [sb_connect]: whatever the ids, the libraries'
    answers and the point of failure, the run makes a prefix of seven
    requests in this order: three downloads, from the buckets
    "Ortomosaicos" and "talhoes", then four uploads, all to the bucket
    "produtos_finais" under the project's id. It never lists or removes
    remote files, and it answers [True] only after all seven. *)
Theorem run_requests_are_confined (id_projeto id_talhao : string) (s : Sb) (h : Hook) :
  exists f1 f2 f3 f4 novos,
    pedidos (fst (snd (@processar_ortomosaico Sb Client
                         (etapas_supabase mkdir gerar_relatorio) H
                         id_projeto id_talhao (s, h))))
    = pedidos s ++ novos
    /\ novos `prefix_of` pedidos_da_execucao id_projeto id_talhao f1 f2 f3 f4
    /\ (fst (@processar_ortomosaico Sb Client
               (etapas_supabase mkdir gerar_relatorio) H
               id_projeto id_talhao (s, h)) = Ok true ->
        novos = pedidos_da_execucao id_projeto id_talhao f1 f2 f3 f4).
Proof.
  pose proof (@processar_ortomosaico_run Sb Client
                (etapas_supabase mkdir gerar_relatorio) H id_projeto id_talhao s h) as Hrun.
  unfold criar_diretorio_temporario in Hrun. rewrite run_bind in Hrun.
  cbn [stage_mkdir etapas_supabase] in Hrun. rewrite run_on_local in Hrun.
  destruct (mkdir _ (local s)) as [[[]|e] w]; cbn [fst snd] in Hrun.
  - rewrite run_ret in Hrun.
    match type of Hrun with
    | context [etapas _ _ ?d ?st] =>
        destruct (etapas_pedidos id_projeto id_talhao d st)
          as (f1 & f2 & f3 & f4 & novos & Hp & Hpre & Hall);
        destruct (etapas id_projeto id_talhao d st) as [[[]|e] s2]
    end.
    + destruct Hrun as (h' & -> & _). exists f1, f2, f3, f4, novos.
      split; [exact Hp|]. split; [exact Hpre|]. intros _. apply Hall. reflexivity.
    + destruct Hrun as (h' & -> & _). exists f1, f2, f3, f4, novos.
      split; [exact Hp|]. split; [exact Hpre|]. discriminate.
  - rewrite Hrun. exists (FBytes ""), (FBytes ""), (FBytes ""), (FBytes ""), [].
    split; [symmetry; apply app_nil_r|]. split; [apply prefix_nil | discriminate].
Qed.

End Pipeline.
